(** * Kokkos::Experimental::MDRangePolicy: tile geometry and dispatch

    A shallow embedding of core/src/KokkosExp_MDRangePolicy.hpp: the
    [Iterate] enumeration, the backend default directions, the iteration
    pattern [Rank<N, OuterDir, InnerDir>], the constructor of
    [MDRangePolicy] on its two paths (host and Cuda), and the
    [md_parallel_for] / [md_parallel_reduce] entry points.

    Conventions of the embedding.
    - [index_type] is a trait of the policy ([traits::index_type]).  The
      constructor is embedded twice.  [FixedWidth.MDRangePolicy] computes
      in [index_type], with its wrap-around; every property of a tile
      count, of [m_num_tiles] or of the tile volume is stated of it.
      [MDRangePolicy.MDRangePolicy] computes on [Z]; it serves the
      properties of the tile sizes and of the divisions by zero.  [/] is
      C++ integer division, i.e. [Z.quot], and a division by zero is an
      outcome of its own.
    - [Kokkos::Array<index_type, rank>] is a [list Z] of length [rank],
      read with [!!!] and written with [<[ i := v ]>].  The assignment of
      a scalar to a whole array ([m_tile = 8], line 177) is declared
      outside the header: [FixedWidth.MDRangePolicy] takes it as a
      parameter.
    - Template instantiation, [static_assert] and [enable_if] are compile
      time: they are functions that may fail with the compiler's
      diagnostic. *)

From Stdlib Require Import ZArith NArith String Lia.
From stdpp Require Import base numbers list.

Local Open Scope Z_scope.

(** ** Outcomes of running a constructor *)

(** A run either returns, or divides by zero (undefined behaviour in C++;
    the outcome records the index [i] of the loop and the tile array at
    that moment), or throws through
    [Kokkos::Impl::throw_runtime_exception]. *)
Inductive outcome (A : Type) : Type :=
| Returned (a : A)
| DivisionByZero (i : nat) (tile : list Z)
| RuntimeException (msg : string).

Arguments Returned {A} a.
Arguments DivisionByZero {A} i tile.
Arguments RuntimeException {A} msg.

Definition bind {A B : Type} (o : outcome A) (k : A -> outcome B) : outcome B :=
  match o with
  | Returned a => k a
  | DivisionByZero i tile => DivisionByZero i tile
  | RuntimeException msg => RuntimeException msg
  end.

(** [for (int i = lo; i < lo + n; ++i) body]: [n] iterations from [lo]. *)
Fixpoint for_loop {A : Type} (lo : nat) (n : nat)
    (body : nat -> A -> outcome A) (a : A) : outcome A :=
  match n with
  | O => Returned a
  | S n' => bind (body lo a) (for_loop (S lo) n' body)
  end.

(** ** enum class Iterate *)

Inductive Iterate : Set :=
| Default  (* Default for the device *)
| Left     (* Left indices stride fastest *)
| Right.   (* Right indices stride fastest *)

(** [static_cast<int>] of an enumerator: its position in the enum. *)
Definition Iterate_to_int (d : Iterate) : Z :=
  match d with
  | Default => 0
  | Left => 1
  | Right => 2
  end.

Definition Iterate_eqb (a b : Iterate) : bool :=
  match a, b with
  | Default, Default | Left, Left | Right, Right => true
  | _, _ => false
  end.

(** ** Execution spaces and the build

    The header names one execution space, [Kokkos::Cuda]; every other space
    is identified by its name. *)
Inductive ExecSpace : Set :=
| Cuda
| Space (name : string).

Definition is_Cuda (e : ExecSpace) : bool :=
  match e with
  | Cuda => true
  | Space _ => false
  end.

(** The two preprocessor symbols the header tests. *)
Record Build : Set := {
  KOKKOS_HAVE_CUDA : bool;
  __CUDACC__ : bool
}.

(** The primary templates; the header declares no specialization. *)
Definition default_outer_direction (ExecSpace_ : ExecSpace) : Iterate := Right.

Definition default_inner_direction (ExecSpace_ : ExecSpace) : Iterate := Right.

(** ** Iteration pattern: struct Rank *)

Module Rank.

Record t : Set := {
  rank : Z;
  outer_direction : Iterate;
  inner_direction : Iterate
}.

(** Instantiating [Rank<N, OuterDir, InnerDir>]: the three
    [static_assert]s, then the static members.  [N] is [unsigned]. *)
Definition instantiate (N : N) (OuterDir InnerDir : Iterate) : string + t :=
  if negb (N =? 0)%N then
    if negb (N =? 1)%N then
      if (N <? 7)%N then
        inr {| rank := Z.of_N N;
               outer_direction := OuterDir;
               inner_direction := InnerDir |}
      else inl "Kokkos Error: Unsupported rank..."%string
    else inl "Kokkos Error: rank 1 is not a multi-dimensional range"%string
  else inl "Kokkos Error: rank 0 undefined"%string.

End Rank.

(** ** struct MDRangePolicy *)

(** What [Kokkos::Impl::PolicyTraits<Properties...>] resolves of the
    properties, as far as the header reads it. *)
Record PolicyTraits : Set := {
  execution_space : ExecSpace;
  iteration_pattern : Rank.t
}.

(** The assignment [m_tile = 8] of the Cuda loop read as a fill of the
    whole array: every entry receives the scalar.  [Kokkos::Array] is
    declared in Kokkos_Array.hpp and not in the header; this reading is
    used only for arrays without a positive entry, where it gives what
    [Array_default_unset] gives ([assign_scalar_unhinted]). *)
Definition Array_assign_scalar (a : list Z) (v : Z) : list Z :=
  replicate (length a) v.

Module MDRangePolicy.

Definition rank (traits : PolicyTraits) : Z :=
  Rank.rank (iteration_pattern traits).

Definition outer_direction (traits : PolicyTraits) : Z :=
  Iterate_to_int
    (if negb (Iterate_eqb (Rank.outer_direction (iteration_pattern traits)) Default)
     then Rank.outer_direction (iteration_pattern traits)
     else default_outer_direction (execution_space traits)).

Definition inner_direction (traits : PolicyTraits) : Z :=
  Iterate_to_int
    (if negb (Iterate_eqb (Rank.inner_direction (iteration_pattern traits)) Default)
     then Rank.inner_direction (iteration_pattern traits)
     else default_inner_direction (execution_space traits)).

(* Ugly ugly workaround intel 14 not handling scoped enum correctly *)
Definition Right : Z := Iterate_to_int Right.
Definition Left : Z := Iterate_to_int Left.

(** The data members. *)
Record t : Set := {
  m_lower : list Z;
  m_upper : list Z;
  m_tile : list Z;
  m_tile_end : list Z;
  m_num_tiles : Z
}.

Definition set_tile (tile : list Z) (p : t) : t :=
  {| m_lower := m_lower p; m_upper := m_upper p; m_tile := tile;
     m_tile_end := m_tile_end p; m_num_tiles := m_num_tiles p |}.

(** [m_tile_end[i] = (span + m_tile[i] - 1) / m_tile[i];
     m_num_tiles *= m_tile_end[i];] *)
Definition count_tiles (i : nat) (span : Z) (p : t) : outcome t :=
  if m_tile p !!! i =? 0 then DivisionByZero i (m_tile p)
  else
    let tile_end := <[ i := Z.quot (span + m_tile p !!! i - 1) (m_tile p !!! i) ]> (m_tile_end p) in
    Returned {| m_lower := m_lower p; m_upper := m_upper p; m_tile := m_tile p;
                m_tile_end := tile_end;
                m_num_tiles := m_num_tiles p * tile_end !!! i |}.

(** The body of the host loop. *)
Definition host_body (traits : PolicyTraits) (lower upper : list Z)
    (i : nat) (p : t) : outcome t :=
  let span := upper !!! i - lower !!! i in
  let p1 :=
    if m_tile p !!! i <=? 0 then
      if ((inner_direction traits =? Right) && (Z.of_nat i <? rank traits - 1))
         || ((inner_direction traits =? Left) && (Z.of_nat i >? 0))
      then set_tile (<[ i := 2 ]> (m_tile p)) p
      else set_tile (<[ i := span ]> (m_tile p)) p
    else p in
  count_tiles i span p1.

(** The body of the first Cuda loop. *)
Definition cuda_body (lower upper : list Z) (i : nat) (p : t) : outcome t :=
  let span := upper !!! i - lower !!! i in
  let p1 :=
    if m_tile p !!! i <=? 0 then
      (* TODO: determine what is a good default tile size for cuda *)
      set_tile (Array_assign_scalar (m_tile p) 8) p
    else p in
  count_tiles i span p1.

(** The body of the second Cuda loop, on [total_tile_size_check]. *)
Definition check_body (p : t) (i : nat) (total_tile_size_check : Z) : outcome Z :=
  Returned (total_tile_size_check * m_tile p !!! i).

(** The condition of the constructor's [if]: [true], and, when
    [KOKKOS_HAVE_CUDA] is defined, that the execution space is not
    [Kokkos::Cuda]. *)
Definition host_path (build : Build) (traits : PolicyTraits) : bool :=
  true && (if KOKKOS_HAVE_CUDA build
           then negb (is_Cuda (execution_space traits)) else true).

(** The state the member initializer list leaves.  [m_tile_end] is not
    initialized there; every entry is written by the loop before it is
    read, and the model starts it at zeros. *)
Definition initial (traits : PolicyTraits) (lower upper tile : list Z) : t :=
  {| m_lower := lower; m_upper := upper; m_tile := tile;
     m_tile_end := replicate (Z.to_nat (rank traits)) 0; m_num_tiles := 1 |}.

Definition tile_dims_message : string :=
  " Cuda ExecSpace Error: MDRange tile dims exceed maximum number of threads per block - choose smaller tile dims".

(** The constructor. *)
Definition MDRangePolicy (build : Build) (traits : PolicyTraits)
    (lower upper tile : list Z) : outcome t :=
  let n := Z.to_nat (rank traits) in
  let p := initial traits lower upper tile in
  if host_path build traits
  then (* Host *)
    for_loop 0 n (host_body traits lower upper) p
  else (* Cuda *)
    bind (for_loop 0 n (cuda_body lower upper) p) (fun p' =>
    bind (for_loop 0 n (check_body p') 1) (fun total_tile_size_check =>
    if total_tile_size_check >? 1024 then
      (* printf(" Tile dimensions exceed Cuda limits\n"); *)
      RuntimeException tile_dims_message
    else Returned p')).

End MDRangePolicy.

(** ** md_parallel_for and md_parallel_reduce

    The entry points hand the work to collaborators declared elsewhere
    ([Kokkos::parallel_for], [Kokkos::parallel_reduce],
    [Impl::MDFunctor], [Impl::DeviceIterateTile]).  A run of an entry point
    is the call it makes, with its arguments. *)

(** [RangePolicy<Properties...>], as far as the header uses it. *)
Record RangePolicy : Set := {
  work_begin : Z;
  work_end : Z;
  chunk_size : option Z
}.

Definition range_policy (work_begin_ work_end_ : Z) : RangePolicy :=
  {| work_begin := work_begin_; work_end := work_end_; chunk_size := None |}.

Definition set_chunk_size (chunk_size_ : Z) (p : RangePolicy) : RangePolicy :=
  {| work_begin := work_begin p; work_end := work_end p;
     chunk_size := Some chunk_size_ |}.

Section Dispatch.

Variables Functor ValueType : Type.

(** [Impl::MDFunctor<MDRange, Functor, ValueType> g(range, f [, v])]. *)
Record MDFunctor : Type := {
  g_range : MDRangePolicy.t;
  g_f : Functor;
  g_v : option ValueType
}.

(** [Impl::DeviceIterateTile<MDRange, Functor, work_tag> closure(range, f)]. *)
Record DeviceIterateTile : Type := {
  closure_range : MDRangePolicy.t;
  closure_f : Functor
}.

Inductive call : Type :=
| Kokkos_parallel_for (policy : RangePolicy) (g : MDFunctor) (str : string)
| Kokkos_parallel_reduce (str : string) (policy : RangePolicy) (g : MDFunctor)
    (v : ValueType)
| closure_execute (closure : DeviceIterateTile).

(** The [enable_if] condition of the two host overloads of
    [md_parallel_for]. *)
Definition enable_if_host (build : Build) (traits : PolicyTraits) : bool :=
  true && (if KOKKOS_HAVE_CUDA build
           then negb (is_Cuda (execution_space traits)) else true).

(** The [enable_if] condition of the two Cuda overloads. *)
Definition enable_if_cuda (build : Build) (traits : PolicyTraits) : bool :=
  true && (if KOKKOS_HAVE_CUDA build
           then is_Cuda (execution_space traits) else true).

(** [md_parallel_for(range, f, str)], host. *)
Definition md_parallel_for_host (range : MDRangePolicy.t) (f : Functor)
    (str : string) : call :=
  let g := {| g_range := range; g_f := f; g_v := None |} in
  Kokkos_parallel_for
    (set_chunk_size 1 (range_policy 0 (MDRangePolicy.m_num_tiles range))) g str.

(** [md_parallel_for(str, range, f)], host. *)
Definition md_parallel_for_host_str_first (str : string)
    (range : MDRangePolicy.t) (f : Functor) : call :=
  let g := {| g_range := range; g_f := f; g_v := None |} in
  Kokkos_parallel_for
    (set_chunk_size 1 (range_policy 0 (MDRangePolicy.m_num_tiles range))) g str.

(** [md_parallel_for(str, range, f)], Cuda specialization. *)
Definition md_parallel_for_cuda_str_first (str : string)
    (range : MDRangePolicy.t) (f : Functor) : call :=
  let closure := {| closure_range := range; closure_f := f |} in
  closure_execute closure.

(** [md_parallel_for(range, f, str)], Cuda specialization. *)
Definition md_parallel_for_cuda (range : MDRangePolicy.t) (f : Functor)
    (str : string) : call :=
  let closure := {| closure_range := range; closure_f := f |} in
  closure_execute closure.

(** Overload resolution of a call [md_parallel_for(range, f, str)]:
    the host overload when its [enable_if] holds; the Cuda overload,
    declared under [__CUDACC__ && KOKKOS_HAVE_CUDA], when its own holds;
    no viable overload otherwise. *)
Definition md_parallel_for (build : Build) (traits : PolicyTraits)
    (range : MDRangePolicy.t) (f : Functor) (str : string) : option call :=
  if enable_if_host build traits then Some (md_parallel_for_host range f str)
  else if __CUDACC__ build && KOKKOS_HAVE_CUDA build && enable_if_cuda build traits
  then Some (md_parallel_for_cuda range f str)
  else None.

(** Overload resolution of a call [md_parallel_for(str, range, f)]. *)
Definition md_parallel_for_str_first (build : Build) (traits : PolicyTraits)
    (str : string) (range : MDRangePolicy.t) (f : Functor) : option call :=
  if enable_if_host build traits then Some (md_parallel_for_host_str_first str range f)
  else if __CUDACC__ build && KOKKOS_HAVE_CUDA build && enable_if_cuda build traits
  then Some (md_parallel_for_cuda_str_first str range f)
  else None.

(** [md_parallel_reduce(range, f, v, str)]. *)
Definition md_parallel_reduce (range : MDRangePolicy.t) (f : Functor)
    (v : ValueType) (str : string) : call :=
  let g := {| g_range := range; g_f := f; g_v := Some v |} in
  Kokkos_parallel_reduce str
    (set_chunk_size 1 (range_policy 0 (MDRangePolicy.m_num_tiles range))) g v.

(** [md_parallel_reduce(str, range, f, v)]. *)
Definition md_parallel_reduce_str_first (str : string)
    (range : MDRangePolicy.t) (f : Functor) (v : ValueType) : call :=
  let g := {| g_range := range; g_f := f; g_v := Some v |} in
  Kokkos_parallel_reduce str
    (set_chunk_size 1 (range_policy 0 (MDRangePolicy.m_num_tiles range))) g v.

(** What a call does apart from its label: the work range, the adapter
    and the accumulator it is given. *)
Definition work_of (c : call) : call :=
  match c with
  | Kokkos_parallel_for policy g _ => Kokkos_parallel_for policy g ""
  | Kokkos_parallel_reduce _ policy g v => Kokkos_parallel_reduce "" policy g v
  | closure_execute closure => closure_execute closure
  end.

End Dispatch.

Arguments Kokkos_parallel_for {Functor ValueType} policy g str.
Arguments Kokkos_parallel_reduce {Functor ValueType} str policy g v.
Arguments closure_execute {Functor ValueType} closure.
Arguments md_parallel_for {Functor ValueType} build traits range f str.
Arguments md_parallel_for_str_first {Functor ValueType} build traits str range f.
Arguments md_parallel_reduce {Functor ValueType} range f v str.
Arguments md_parallel_reduce_str_first {Functor ValueType} str range f v.
Arguments work_of {Functor ValueType} c.

(** ** Definitions of the specification *)

(** The product of the entries of an array. *)
Definition product (l : list Z) : Z := foldr Z.mul 1 l.

(** [ceil (a / b)] for a positive [b]: the quotient, one more when the
    division leaves a remainder. *)
Definition ceil_div (a b : Z) : Z :=
  a / b + (if a mod b =? 0 then 0 else 1).

(** What the spec says of a resolved direction: the backend's default
    for [Default], the pattern's own direction otherwise. *)
Definition resolved_direction (pattern backend_default : Iterate) : Iterate :=
  match pattern with
  | Default => backend_default
  | Left => Left
  | Right => Right
  end.

(** Arrays of the size the policy's type gives them. *)
Definition well_sized (traits : PolicyTraits) (lower upper tile : list Z) : Prop :=
  length lower = Z.to_nat (MDRangePolicy.rank traits)
  /\ length upper = Z.to_nat (MDRangePolicy.rank traits)
  /\ length tile = Z.to_nat (MDRangePolicy.rank traits).

(** The condition under which the host loop gives an unset dimension [i]
    the tile size 2. *)
Definition subdivided (traits : PolicyTraits) (i : nat) : Prop :=
  (MDRangePolicy.inner_direction traits = MDRangePolicy.Right
   /\ Z.of_nat i < MDRangePolicy.rank traits - 1)
  \/ (MDRangePolicy.inner_direction traits = MDRangePolicy.Left
      /\ Z.of_nat i > 0).

(** The tile size the host loop leaves in dimension [i]. *)
Definition host_tile (traits : PolicyTraits) (lower upper tile : list Z)
    (i : nat) : Z :=
  if tile !!! i <=? 0 then
    if ((MDRangePolicy.inner_direction traits =? MDRangePolicy.Right)
        && (Z.of_nat i <? MDRangePolicy.rank traits - 1))
       || ((MDRangePolicy.inner_direction traits =? MDRangePolicy.Left)
           && (Z.of_nat i >? 0))
    then 2
    else upper !!! i - lower !!! i
  else tile !!! i.

(** The tile array the first Cuda loop holds once it has passed the first
    [k] dimensions: the hint as long as every entry met was positive, 8
    everywhere from the first unset entry on. *)
Definition cuda_tile (tile : list Z) (k : nat) : list Z :=
  if decide (Forall (fun x => 0 < x) (take k tile)) then tile
  else replicate (length tile) 8.

(** ** Policies used in the examples *)

(** A build with Cuda, compiled by the Cuda compiler. *)
Definition cuda_build : Build :=
  {| KOKKOS_HAVE_CUDA := true; __CUDACC__ := true |}.

(** [MDRangePolicy<OpenMP, Rank<2>>]. *)
Definition OpenMP_Rank2 : PolicyTraits :=
  {| execution_space := Space "OpenMP";
     iteration_pattern :=
       {| Rank.rank := 2; Rank.outer_direction := Default;
          Rank.inner_direction := Default |} |}.

(** [MDRangePolicy<Cuda, Rank<2>>]. *)
Definition Cuda_Rank2 : PolicyTraits :=
  {| execution_space := Cuda;
     iteration_pattern :=
       {| Rank.rank := 2; Rank.outer_direction := Default;
          Rank.inner_direction := Default |} |}.

(** [MDRangePolicy<Cuda, Rank<3>>]. *)
Definition Cuda_Rank3 : PolicyTraits :=
  {| execution_space := Cuda;
     iteration_pattern :=
       {| Rank.rank := 3; Rank.outer_direction := Default;
          Rank.inner_direction := Default |} |}.

(** [MDRangePolicy<Cuda, Rank<4>>]. *)
Definition Cuda_Rank4 : PolicyTraits :=
  {| execution_space := Cuda;
     iteration_pattern :=
       {| Rank.rank := 4; Rank.outer_direction := Default;
          Rank.inner_direction := Default |} |}.



(** ** index_type: the fixed-width integers of the constructor

    [index_type] is [traits::index_type], an integer type of the policy.
    The model covers the four types whose arithmetic with an [int] literal
    stays in the type itself (no integer promotion), on the LP64 platforms
    the header is built for.  Unsigned arithmetic wraps modulo [2 ^ bits];
    a signed overflow, undefined in C++, is given the two's complement
    result. *)
Inductive IndexType : Set :=
| Int     (* int: 32 bits, signed *)
| UInt    (* unsigned int: 32 bits *)
| Long    (* long: 64 bits, signed *)
| ULong.  (* unsigned long: 64 bits *)

Definition bits (I : IndexType) : Z :=
  match I with
  | Int | UInt => 32
  | Long | ULong => 64
  end.

Definition is_signed (I : IndexType) : bool :=
  match I with
  | Int | Long => true
  | UInt | ULong => false
  end.

Definition modulus (I : IndexType) : Z := 2 ^ bits I.

Definition half_modulus (I : IndexType) : Z := 2 ^ (bits I - 1).

Definition idx_min (I : IndexType) : Z :=
  if is_signed I then - half_modulus I else 0.

Definition idx_max (I : IndexType) : Z :=
  if is_signed I then half_modulus I - 1 else modulus I - 1.

(** The values of the type. *)
Definition fits (I : IndexType) (z : Z) : Prop := idx_min I <= z <= idx_max I.

(** The value of the type that a mathematical result is stored as. *)
Definition wrap (I : IndexType) (z : Z) : Z :=
  if is_signed I
  then (z + half_modulus I) mod modulus I - half_modulus I
  else z mod modulus I.

Definition idx_add (I : IndexType) (a b : Z) : Z := wrap I (a + b).
Definition idx_sub (I : IndexType) (a b : Z) : Z := wrap I (a - b).
Definition idx_mul (I : IndexType) (a b : Z) : Z := wrap I (a * b).
Definition idx_div (I : IndexType) (a b : Z) : Z := wrap I (Z.quot a b).

(** Modelled from the spec: what the assignment [m_tile = 8] of the Cuda
    loop does, for a [Kokkos::Array] declared outside the header; "If
    tile[i] is unset, default to a fixed constant (8) for every
    dimension": every unset entry receives the scalar, and an entry that
    holds a positive hint keeps it. *)
Definition Array_default_unset (a : list Z) (v : Z) : list Z :=
  (fun x => if x <=? 0 then v else x) <$> a.

(** An assignment of a scalar to an array that does what the spec says. *)
Definition defaults_unset_entries (Array_assign : list Z -> Z -> list Z) : Prop :=
  forall a v, Array_assign a v = Array_default_unset a v.

(** An assignment of a scalar to an array keeps the size of the array. *)
Definition keeps_size (Array_assign : list Z -> Z -> list Z) : Prop :=
  forall a v, length (Array_assign a v) = length a.

(** ** The constructor on [index_type]

    The constructor of [MDRangePolicy] with the arithmetic of lines
    153-186 done in [index_type], and with the assignment of a scalar to a
    [Kokkos::Array] (line 177) taken as a parameter. *)
Module FixedWidth.

(** [m_tile_end[i] = static_cast<index_type>((span + m_tile[i] - 1) / m_tile[i]);
     m_num_tiles *= m_tile_end[i];] *)
Definition count_tiles (I : IndexType) (i : nat) (span : Z)
    (p : MDRangePolicy.t) : outcome MDRangePolicy.t :=
  if MDRangePolicy.m_tile p !!! i =? 0
  then DivisionByZero i (MDRangePolicy.m_tile p)
  else
    let tile_end :=
      <[ i := idx_div I
                (idx_sub I (idx_add I span (MDRangePolicy.m_tile p !!! i)) 1)
                (MDRangePolicy.m_tile p !!! i) ]> (MDRangePolicy.m_tile_end p) in
    Returned {| MDRangePolicy.m_lower := MDRangePolicy.m_lower p;
                MDRangePolicy.m_upper := MDRangePolicy.m_upper p;
                MDRangePolicy.m_tile := MDRangePolicy.m_tile p;
                MDRangePolicy.m_tile_end := tile_end;
                MDRangePolicy.m_num_tiles :=
                  idx_mul I (MDRangePolicy.m_num_tiles p) (tile_end !!! i) |}.

(** The body of the host loop. *)
Definition host_body (I : IndexType) (traits : PolicyTraits)
    (lower upper : list Z) (i : nat) (p : MDRangePolicy.t)
    : outcome MDRangePolicy.t :=
  let span := idx_sub I (upper !!! i) (lower !!! i) in
  let p1 :=
    if MDRangePolicy.m_tile p !!! i <=? 0 then
      if ((MDRangePolicy.inner_direction traits =? MDRangePolicy.Right)
          && (Z.of_nat i <? MDRangePolicy.rank traits - 1))
         || ((MDRangePolicy.inner_direction traits =? MDRangePolicy.Left)
             && (Z.of_nat i >? 0))
      then MDRangePolicy.set_tile (<[ i := 2 ]> (MDRangePolicy.m_tile p)) p
      else MDRangePolicy.set_tile (<[ i := span ]> (MDRangePolicy.m_tile p)) p
    else p in
  count_tiles I i span p1.

(** The body of the first Cuda loop. *)
Definition cuda_body (I : IndexType) (Array_assign : list Z -> Z -> list Z)
    (lower upper : list Z) (i : nat) (p : MDRangePolicy.t)
    : outcome MDRangePolicy.t :=
  let span := idx_sub I (upper !!! i) (lower !!! i) in
  let p1 :=
    if MDRangePolicy.m_tile p !!! i <=? 0 then
      (* m_tile = 8; *)
      MDRangePolicy.set_tile (Array_assign (MDRangePolicy.m_tile p) 8) p
    else p in
  count_tiles I i span p1.

(** The body of the second Cuda loop, on [total_tile_size_check]. *)
Definition check_body (I : IndexType) (p : MDRangePolicy.t) (i : nat)
    (total_tile_size_check : Z) : outcome Z :=
  Returned (idx_mul I total_tile_size_check (MDRangePolicy.m_tile p !!! i)).

(** The first Cuda loop, which resolves the tile sizes. *)
Definition resolve_tiles (I : IndexType) (Array_assign : list Z -> Z -> list Z)
    (traits : PolicyTraits) (lower upper tile : list Z)
    : outcome MDRangePolicy.t :=
  for_loop 0 (Z.to_nat (MDRangePolicy.rank traits))
    (cuda_body I Array_assign lower upper)
    (MDRangePolicy.initial traits lower upper tile).

(** The second Cuda loop and the test of the tile volume. *)
Definition check_volume (I : IndexType) (traits : PolicyTraits)
    (p' : MDRangePolicy.t) : outcome MDRangePolicy.t :=
  bind (for_loop 0 (Z.to_nat (MDRangePolicy.rank traits)) (check_body I p') 1)
    (fun total_tile_size_check =>
       if total_tile_size_check >? 1024 then
         RuntimeException MDRangePolicy.tile_dims_message
       else Returned p').

(** The constructor. *)
Definition MDRangePolicy (I : IndexType) (Array_assign : list Z -> Z -> list Z)
    (build : Build) (traits : PolicyTraits) (lower upper tile : list Z)
    : outcome MDRangePolicy.t :=
  if MDRangePolicy.host_path build traits
  then (* Host *)
    for_loop 0 (Z.to_nat (MDRangePolicy.rank traits))
      (host_body I traits lower upper)
      (MDRangePolicy.initial traits lower upper tile)
  else (* Cuda *)
    bind (resolve_tiles I Array_assign traits lower upper tile)
      (check_volume I traits).

End FixedWidth.

(** Arrays of the size and the element type the policy's type gives them. *)
Definition well_typed (I : IndexType) (traits : PolicyTraits)
    (lower upper tile : list Z) : Prop :=
  well_sized traits lower upper tile
  /\ Forall (fits I) lower /\ Forall (fits I) upper /\ Forall (fits I) tile.

(** The tile count the constructor stores for a span and a tile size. *)
Definition fixed_count (I : IndexType) (span tile : Z) : Z :=
  idx_div I (idx_sub I (idx_add I span tile) 1) tile.

(** The tile size the host loop on [index_type] leaves in dimension [i]. *)
Definition fixed_host_tile (I : IndexType) (traits : PolicyTraits)
    (lower upper tile : list Z) (i : nat) : Z :=
  if tile !!! i <=? 0 then
    if ((MDRangePolicy.inner_direction traits =? MDRangePolicy.Right)
        && (Z.of_nat i <? MDRangePolicy.rank traits - 1))
       || ((MDRangePolicy.inner_direction traits =? MDRangePolicy.Left)
           && (Z.of_nat i >? 0))
    then 2
    else idx_sub I (upper !!! i) (lower !!! i)
  else tile !!! i.

(** After [k] passes of the host loop on [index_type]. *)
Definition fixed_host_inv (I : IndexType) (traits : PolicyTraits)
    (lower upper tile : list Z) (k : nat) (p : MDRangePolicy.t) : Prop :=
  MDRangePolicy.m_lower p = lower
  /\ MDRangePolicy.m_upper p = upper
  /\ length (MDRangePolicy.m_tile p) = length tile
  /\ length (MDRangePolicy.m_tile_end p) = Z.to_nat (MDRangePolicy.rank traits)
  /\ (forall j, (k <= j)%nat -> MDRangePolicy.m_tile p !!! j = tile !!! j)
  /\ (forall j, (j < k)%nat ->
        MDRangePolicy.m_tile p !!! j = fixed_host_tile I traits lower upper tile j
        /\ fixed_host_tile I traits lower upper tile j <> 0
        /\ MDRangePolicy.m_tile_end p !!! j =
           fixed_count I (idx_sub I (upper !!! j) (lower !!! j))
             (fixed_host_tile I traits lower upper tile j))
  /\ MDRangePolicy.m_num_tiles p =
     wrap I (product (take k (MDRangePolicy.m_tile_end p))).

(** How the host loop on [index_type] stops short. *)
Definition fixed_host_stop (I : IndexType) (traits : PolicyTraits)
    (lower upper tile : list Z) (o : outcome MDRangePolicy.t) : Prop :=
  match o with
  | DivisionByZero j t =>
      (j < Z.to_nat (MDRangePolicy.rank traits))%nat
      /\ fixed_host_tile I traits lower upper tile j = 0
      /\ (forall j', (j' < j)%nat ->
            fixed_host_tile I traits lower upper tile j' <> 0)
  | _ => False
  end.

(** After [k] passes of the first Cuda loop on [index_type], for an
    assignment that defaults the unset entries: the tile array is the hint
    while every entry met was positive and the defaulted hint from then on,
    and each count was taken with the defaulted tile size. *)
Definition fixed_cuda_inv (I : IndexType) (traits : PolicyTraits)
    (lower upper tile : list Z) (k : nat) (p : MDRangePolicy.t) : Prop :=
  MDRangePolicy.m_lower p = lower
  /\ MDRangePolicy.m_upper p = upper
  /\ ((MDRangePolicy.m_tile p = tile /\ Forall (fun x => 0 < x) (take k tile))
      \/ MDRangePolicy.m_tile p = Array_default_unset tile 8)
  /\ length (MDRangePolicy.m_tile_end p) = Z.to_nat (MDRangePolicy.rank traits)
  /\ (forall j, (j < k)%nat ->
        MDRangePolicy.m_tile_end p !!! j =
          fixed_count I (idx_sub I (upper !!! j) (lower !!! j))
            (Array_default_unset tile 8 !!! j))
  /\ MDRangePolicy.m_num_tiles p =
     wrap I (product (take k (MDRangePolicy.m_tile_end p))).

(** After [k] passes of the first Cuda loop on [index_type] when every
    hint is positive, whatever the assignment: it is never run. *)
Definition fixed_hinted_inv (I : IndexType) (traits : PolicyTraits)
    (lower upper tile : list Z) (k : nat) (p : MDRangePolicy.t) : Prop :=
  MDRangePolicy.m_lower p = lower
  /\ MDRangePolicy.m_upper p = upper
  /\ MDRangePolicy.m_tile p = tile
  /\ length (MDRangePolicy.m_tile_end p) = Z.to_nat (MDRangePolicy.rank traits)
  /\ (forall j, (j < k)%nat ->
        MDRangePolicy.m_tile_end p !!! j =
          fixed_count I (idx_sub I (upper !!! j) (lower !!! j)) (tile !!! j))
  /\ MDRangePolicy.m_num_tiles p =
     wrap I (product (take k (MDRangePolicy.m_tile_end p))).

(** [MDRangePolicy<Cuda, Rank<2>>] on hints that need no default: the
    assignment of line 177 is never run, any will do. *)
Definition no_assignment (a : list Z) (v : Z) : list Z := a.

(** ** The invariants of the two loops *)

(** After [k] passes of the host loop: the bounds are the arguments, the
    dimensions below [k] hold their resolved tile size (not zero) and
    their tile count, the dimensions from [k] on still hold the hint, and
    [m_num_tiles] is the product of the counts so far. *)
Definition host_inv (traits : PolicyTraits) (lower upper tile : list Z)
    (k : nat) (p : MDRangePolicy.t) : Prop :=
  MDRangePolicy.m_lower p = lower
  /\ MDRangePolicy.m_upper p = upper
  /\ length (MDRangePolicy.m_tile p) = length tile
  /\ length (MDRangePolicy.m_tile_end p) = Z.to_nat (MDRangePolicy.rank traits)
  /\ (forall j, (k <= j)%nat -> MDRangePolicy.m_tile p !!! j = tile !!! j)
  /\ (forall j, (j < k)%nat ->
        MDRangePolicy.m_tile p !!! j = host_tile traits lower upper tile j
        /\ host_tile traits lower upper tile j <> 0
        /\ MDRangePolicy.m_tile_end p !!! j =
           Z.quot (upper !!! j - lower !!! j + host_tile traits lower upper tile j - 1)
                  (host_tile traits lower upper tile j))
  /\ MDRangePolicy.m_num_tiles p = product (take k (MDRangePolicy.m_tile_end p)).

(** How the host loop stops short: at a dimension [j] whose resolved tile
    size is zero, every earlier one resolved and not zero, every later one
    still the hint. *)
Definition host_stop (traits : PolicyTraits) (lower upper tile : list Z)
    (o : outcome MDRangePolicy.t) : Prop :=
  match o with
  | DivisionByZero j t =>
      (j < Z.to_nat (MDRangePolicy.rank traits))%nat
      /\ host_tile traits lower upper tile j = 0
      /\ t !!! j = 0
      /\ (forall j', (j' < j)%nat ->
            t !!! j' = host_tile traits lower upper tile j'
            /\ host_tile traits lower upper tile j' <> 0)
      /\ (forall j', (j < j')%nat -> t !!! j' = tile !!! j')
  | _ => False
  end.

(** After [k] passes of the first Cuda loop. *)
Definition cuda_inv (traits : PolicyTraits) (lower upper tile : list Z)
    (k : nat) (p : MDRangePolicy.t) : Prop :=
  MDRangePolicy.m_lower p = lower
  /\ MDRangePolicy.m_upper p = upper
  /\ MDRangePolicy.m_tile p = cuda_tile tile k
  /\ length (MDRangePolicy.m_tile_end p) = Z.to_nat (MDRangePolicy.rank traits)
  /\ MDRangePolicy.m_num_tiles p = product (take k (MDRangePolicy.m_tile_end p)).

(** The tile counts of the first Cuda loop after [k] passes: the count of
    a dimension [j] is taken with the tile size [m_tile[j]] holds when the
    loop passes [j]. *)
Definition cuda_counts (lower upper tile : list Z)
    (k : nat) (p : MDRangePolicy.t) : Prop :=
  forall j, (j < k)%nat ->
    MDRangePolicy.m_tile_end p !!! j =
      Z.quot (upper !!! j - lower !!! j + cuda_tile tile (S j) !!! j - 1)
             (cuda_tile tile (S j) !!! j).

(** ** Loops *)

Lemma for_loop_ind {A : Type} (P : nat -> A -> Prop) (F : outcome A -> Prop)
    (body : nat -> A -> outcome A) (n : nat) :
  forall lo a,
    P lo a ->
    (forall i a0, (lo <= i < lo + n)%nat -> P i a0 ->
       match body i a0 with
       | Returned a' => P (S i) a'
       | DivisionByZero j t => F (DivisionByZero j t)
       | RuntimeException m => F (RuntimeException m)
       end) ->
    match for_loop lo n body a with
    | Returned a' => P (lo + n)%nat a'
    | DivisionByZero j t => F (DivisionByZero j t)
    | RuntimeException m => F (RuntimeException m)
    end.
Proof.
  induction n as [|n IH]; intros lo a Ha Hstep; simpl.
  - by rewrite Nat.add_0_r.
  - pose proof (Hstep lo a ltac:(lia) Ha) as Hlo.
    destruct (body lo a) as [a'| |]; simpl; try done.
    replace (lo + S n)%nat with (S lo + n)%nat by lia.
    apply IH; [done|].
    intros i a0 Hi. apply Hstep. lia.
Qed.

Lemma for_loop_snoc {A : Type} (body : nat -> A -> outcome A) (n : nat) :
  forall lo a,
    for_loop lo (S n) body a = bind (for_loop lo n body a) (body (lo + n)%nat).
Proof.
  induction n as [|n IH]; intros lo a.
  - simpl. rewrite Nat.add_0_r. by destruct (body lo a).
  - change (for_loop lo (S (S n)) body a)
      with (bind (body lo a) (for_loop (S lo) (S n) body)).
    change (for_loop lo (S n) body a)
      with (bind (body lo a) (for_loop (S lo) n body)).
    destruct (body lo a) as [a'| |]; cbn [bind]; try done.
    rewrite IH. by replace (lo + S n)%nat with (S lo + n)%nat by lia.
Qed.

(** ** Arithmetic of tile counts *)

Lemma product_app (l1 l2 : list Z) : product (l1 ++ l2) = product l1 * product l2.
Proof.
  unfold product. induction l1 as [|x l1 IH]; simpl.
  - by destruct (foldr Z.mul 1 l2).
  - rewrite IH. lia.
Qed.

Lemma product_take_S (l : list Z) (k : nat) :
  (k < length l)%nat -> product (take (S k) l) = product (take k l) * l !!! k.
Proof.
  intros Hk.
  rewrite (take_S_r l k (l !!! k)) by by apply list_lookup_lookup_total_lt.
  rewrite product_app. unfold product at 2. simpl. lia.
Qed.

Lemma ceil_div_spec (a b : Z) :
  0 < b -> (ceil_div a b - 1) * b < a <= ceil_div a b * b.
Proof.
  intros Hb. unfold ceil_div.
  pose proof (Z.div_mod a b ltac:(lia)) as Hdm.
  pose proof (Z.mod_pos_bound a b Hb) as Hm.
  destruct (Z.eqb_spec (a mod b) 0); nia.
Qed.

(** The C++ expression [(span + tile - 1) / tile] is the ceiling of
    [span / tile] when the span is not negative and the tile positive. *)
Lemma quot_ceil_div (span tile : Z) :
  0 <= span -> 0 < tile -> Z.quot (span + tile - 1) tile = ceil_div span tile.
Proof.
  intros Hs Ht.
  rewrite Z.quot_div_nonneg by lia.
  pose proof (ceil_div_spec span tile Ht) as Hc.
  symmetry. apply (Z.div_unique _ _ _ (span + tile - 1 - tile * ceil_div span tile)); lia.
Qed.

(** ** The host loop *)

Lemma set_tile_same (p : MDRangePolicy.t) :
  MDRangePolicy.set_tile (MDRangePolicy.m_tile p) p = p.
Proof. by destruct p. Qed.

(** The host body first brings [m_tile[i]] to its resolved size, then
    counts the tiles of the dimension. *)
Lemma host_body_resolve (traits : PolicyTraits) (lower upper tile : list Z)
    (i : nat) (p : MDRangePolicy.t) :
  MDRangePolicy.m_tile p !!! i = tile !!! i ->
  (i < length (MDRangePolicy.m_tile p))%nat ->
  exists tl,
    MDRangePolicy.host_body traits lower upper i p =
      MDRangePolicy.count_tiles i (upper !!! i - lower !!! i)
        (MDRangePolicy.set_tile tl p)
    /\ tl !!! i = host_tile traits lower upper tile i
    /\ length tl = length (MDRangePolicy.m_tile p)
    /\ (forall j, j <> i -> tl !!! j = MDRangePolicy.m_tile p !!! j).
Proof.
  intros Hi Hlen. unfold MDRangePolicy.host_body, host_tile. rewrite Hi.
  destruct (tile !!! i <=? 0).
  - match goal with |- context [if ?c then _ else _] => destruct c end.
    + exists (<[ i := 2 ]> (MDRangePolicy.m_tile p)). split_and!; [done| |..].
      * by apply list_lookup_total_insert_eq.
      * by rewrite length_insert.
      * intros j Hj. by apply list_lookup_total_insert_ne.
    + exists (<[ i := upper !!! i - lower !!! i ]> (MDRangePolicy.m_tile p)).
      split_and!; [done| |..].
      * by apply list_lookup_total_insert_eq.
      * by rewrite length_insert.
      * intros j Hj. by apply list_lookup_total_insert_ne.
  - exists (MDRangePolicy.m_tile p). rewrite set_tile_same. by split_and!.
Qed.

Section Host.

Variable traits : PolicyTraits.
Variables lower upper tile : list Z.
Hypothesis Hsize : well_sized traits lower upper tile.

Lemma host_inv_initial :
  host_inv traits lower upper tile 0 (MDRangePolicy.initial traits lower upper tile).
Proof.
  unfold host_inv, MDRangePolicy.initial; simpl.
  split_and!; try done.
  - by rewrite length_replicate.
  - intros j Hj. lia.
Qed.

Lemma host_body_step (k : nat) (p : MDRangePolicy.t) :
  (k < Z.to_nat (MDRangePolicy.rank traits))%nat ->
  host_inv traits lower upper tile k p ->
  match MDRangePolicy.host_body traits lower upper k p with
  | Returned p' => host_inv traits lower upper tile (S k) p'
  | DivisionByZero j t => host_stop traits lower upper tile (DivisionByZero j t)
  | RuntimeException m => host_stop traits lower upper tile (RuntimeException m)
  end.
Proof.
  intros Hk (Hlo & Hup & Hlt & Hle & Hrest & Hdone & Hnum).
  destruct Hsize as (_ & _ & Htile).
  destruct (host_body_resolve traits lower upper tile k p) as (tl & -> & Hk' & Hltl & Hother).
  { apply Hrest. lia. }
  { lia. }
  unfold MDRangePolicy.count_tiles; simpl. rewrite Hk'.
  destruct (Z.eqb_spec (host_tile traits lower upper tile k) 0) as [Hz|Hz]; simpl.
  - split_and!; try done.
    + by rewrite Hk'.
    + intros j' Hj'. rewrite Hother by lia.
      destruct (Hdone j' Hj') as (-> & ? & _). done.
    + intros j' Hj'. rewrite Hother by lia. apply Hrest. lia.
  - unfold host_inv; simpl. split_and!; try done.
    + lia.
    + by rewrite length_insert.
    + intros j Hj. rewrite Hother by lia. apply Hrest. lia.
    + intros j Hj. destruct (decide (j = k)) as [->|Hne].
      * rewrite Hk'. split_and!; try done.
        rewrite list_lookup_total_insert_eq by lia. done.
      * rewrite Hother by done.
        rewrite list_lookup_total_insert_ne by done.
        apply Hdone. lia.
    + rewrite product_take_S by (rewrite length_insert; lia).
      rewrite take_insert_ge by lia. by rewrite Hnum.
Qed.

(** Every outcome of the host loop. *)
Lemma host_loop_outcome :
  match for_loop 0 (Z.to_nat (MDRangePolicy.rank traits))
          (MDRangePolicy.host_body traits lower upper)
          (MDRangePolicy.initial traits lower upper tile) with
  | Returned p =>
      host_inv traits lower upper tile (Z.to_nat (MDRangePolicy.rank traits)) p
  | DivisionByZero j t => host_stop traits lower upper tile (DivisionByZero j t)
  | RuntimeException m => host_stop traits lower upper tile (RuntimeException m)
  end.
Proof.
  apply (for_loop_ind (host_inv traits lower upper tile)
           (host_stop traits lower upper tile)).
  - apply host_inv_initial.
  - intros i p Hi Hp. apply host_body_step; [lia|done].
Qed.

(** The loop returns when no dimension resolves to a tile size of zero. *)
Lemma host_loop_returns :
  (forall j, (j < Z.to_nat (MDRangePolicy.rank traits))%nat ->
     host_tile traits lower upper tile j <> 0) ->
  exists p,
    for_loop 0 (Z.to_nat (MDRangePolicy.rank traits))
      (MDRangePolicy.host_body traits lower upper)
      (MDRangePolicy.initial traits lower upper tile) = Returned p.
Proof.
  intros Hnz. pose proof host_loop_outcome as Hout.
  destruct (for_loop _ _ _ _) as [p|j t|m]; [by exists p| |done].
  destruct Hout as (Hj & Hz & _). by destruct (Hnz j Hj).
Qed.

End Host.

(** ** The Cuda loops *)

Lemma length_cuda_tile (tile : list Z) (k : nat) :
  length (cuda_tile tile k) = length tile.
Proof. unfold cuda_tile. case_decide; [done|]. by rewrite length_replicate. Qed.

Lemma cuda_tile_S (tile : list Z) (k : nat) :
  (k < length tile)%nat ->
  cuda_tile tile (S k) =
    if cuda_tile tile k !!! k <=? 0
    then Array_assign_scalar (cuda_tile tile k) 8
    else cuda_tile tile k.
Proof.
  intros Hk. unfold cuda_tile, Array_assign_scalar.
  rewrite (take_S_r tile k (tile !!! k)) by by apply list_lookup_lookup_total_lt.
  destruct (decide (Forall (fun x => 0 < x) (take k tile))) as [Hall|Hall].
  - destruct (Z.leb_spec (tile !!! k) 0) as [Hle|Hlt].
    + rewrite decide_False; [done|].
      rewrite Forall_app, Forall_singleton. lia.
    + rewrite decide_True; [done|].
      rewrite Forall_app, Forall_singleton. done.
  - rewrite lookup_total_replicate_2 by done. simpl.
    rewrite decide_False; [done|].
    rewrite Forall_app. tauto.
Qed.

(** A Cuda tile array holds no zero below its length. *)
Lemma cuda_tile_S_nonzero (tile : list Z) (k : nat) :
  (k < length tile)%nat -> cuda_tile tile (S k) !!! k <> 0.
Proof.
  intros Hk. rewrite cuda_tile_S by done.
  destruct (Z.leb_spec (cuda_tile tile k !!! k) 0) as [Hle|Hlt]; [|lia].
  unfold Array_assign_scalar. rewrite lookup_total_replicate_2; [done|].
  by rewrite length_cuda_tile.
Qed.

Section CudaLoops.

Variable traits : PolicyTraits.
Variables lower upper tile : list Z.
Hypothesis Hsize : well_sized traits lower upper tile.

Lemma cuda_inv_initial :
  cuda_inv traits lower upper tile 0 (MDRangePolicy.initial traits lower upper tile).
Proof.
  unfold cuda_inv, MDRangePolicy.initial, cuda_tile.
  split_and!; try done.
  cbn [MDRangePolicy.m_tile_end]. by rewrite length_replicate.
Qed.

(** A pass of the first Cuda loop always returns. *)
Lemma cuda_body_step (k : nat) (p : MDRangePolicy.t) :
  (k < Z.to_nat (MDRangePolicy.rank traits))%nat ->
  cuda_inv traits lower upper tile k p ->
  exists p',
    MDRangePolicy.cuda_body lower upper k p = Returned p'
    /\ cuda_inv traits lower upper tile (S k) p'
    /\ MDRangePolicy.m_tile_end p' !!! k =
       Z.quot (upper !!! k - lower !!! k + cuda_tile tile (S k) !!! k - 1)
              (cuda_tile tile (S k) !!! k).
Proof.
  intros Hk (Hlo & Hup & Htl & Hle & Hnum).
  destruct Hsize as (_ & _ & Htile).
  assert (Hk' : (k < length tile)%nat) by lia.
  pose proof (cuda_tile_S tile k Hk') as HS.
  pose proof (cuda_tile_S_nonzero tile k Hk') as Hnz.
  unfold MDRangePolicy.cuda_body. rewrite Htl.
  set (p1 := if cuda_tile tile k !!! k <=? 0 then _ else p).
  assert (Hp1 : p1 = MDRangePolicy.set_tile (cuda_tile tile (S k)) p).
  { subst p1. rewrite HS. destruct (cuda_tile tile k !!! k <=? 0); [done|].
    by rewrite <- Htl, set_tile_same. }
  rewrite Hp1. unfold MDRangePolicy.count_tiles; simpl.
  destruct (Z.eqb_spec (cuda_tile tile (S k) !!! k) 0) as [Hz|_]; [done|].
  eexists. split; [done|]. unfold cuda_inv; simpl. split_and!; try done.
  - by rewrite length_insert.
  - rewrite product_take_S by (rewrite length_insert; lia).
    rewrite take_insert_ge by lia. by rewrite Hnum.
  - rewrite list_lookup_total_insert_eq by lia. done.
Qed.

(** The second Cuda loop multiplies the tile sizes of all dimensions. *)
Lemma check_loop_product (p : MDRangePolicy.t) :
  length (MDRangePolicy.m_tile p) = Z.to_nat (MDRangePolicy.rank traits) ->
  for_loop 0 (Z.to_nat (MDRangePolicy.rank traits)) (MDRangePolicy.check_body p) 1
  = Returned (product (MDRangePolicy.m_tile p)).
Proof.
  intros Hlen.
  pose proof (for_loop_ind
                (fun k acc => acc = product (take k (MDRangePolicy.m_tile p)))
                (fun _ => False) (MDRangePolicy.check_body p)
                (Z.to_nat (MDRangePolicy.rank traits)) 0%nat 1 eq_refl) as Hind.
  simpl in Hind.
  assert (Hstep : forall i a0,
    (0 <= i < Z.to_nat (MDRangePolicy.rank traits))%nat ->
    a0 = product (take i (MDRangePolicy.m_tile p)) ->
    match MDRangePolicy.check_body p i a0 with
    | Returned a' => a' = product (take (S i) (MDRangePolicy.m_tile p))
    | _ => False
    end).
  { intros i a0 Hi ->. unfold MDRangePolicy.check_body.
    by rewrite product_take_S by lia. }
  specialize (Hind Hstep).
  destruct (for_loop _ _ _ _) as [acc| |]; [|done..].
  rewrite Hind. by rewrite take_ge by lia.
Qed.

End CudaLoops.

(** ** Directions *)

Lemma Iterate_eqb_eq (a b : Iterate) : Iterate_eqb a b = true <-> a = b.
Proof. destruct a, b; simpl; split; intros H; done. Qed.

Lemma Iterate_to_int_inj (a b : Iterate) :
  Iterate_to_int a = Iterate_to_int b -> a = b.
Proof. destruct a, b; simpl; intros H; done. Qed.

(** The test of the host loop, as a proposition. *)
Lemma subdivided_test (traits : PolicyTraits) (i : nat) :
  ((MDRangePolicy.inner_direction traits =? MDRangePolicy.Right)
   && (Z.of_nat i <? MDRangePolicy.rank traits - 1))
  || ((MDRangePolicy.inner_direction traits =? MDRangePolicy.Left)
      && (Z.of_nat i >? 0)) = true
  <-> subdivided traits i.
Proof.
  unfold subdivided.
  rewrite orb_true_iff, !andb_true_iff, !Z.eqb_eq, Z.ltb_lt, Z.gtb_gt. done.
Qed.

Lemma host_tile_unset (traits : PolicyTraits) (lower upper tile : list Z) (i : nat) :
  tile !!! i <= 0 ->
  (subdivided traits i -> host_tile traits lower upper tile i = 2)
  /\ (~ subdivided traits i ->
      host_tile traits lower upper tile i = upper !!! i - lower !!! i).
Proof.
  intros Hi. unfold host_tile.
  rewrite (proj2 (Z.leb_le _ _) Hi).
  pose proof (subdivided_test traits i) as Ht.
  match goal with |- context [if ?c then _ else _] => destruct c end.
  - split; [done|]. intros Hn. destruct Hn. by apply Ht.
  - split; [|done]. intros Hs. apply Ht in Hs. done.
Qed.

Lemma host_tile_hinted (traits : PolicyTraits) (lower upper tile : list Z) (i : nat) :
  1 <= tile !!! i -> host_tile traits lower upper tile i = tile !!! i.
Proof.
  intros Hi. unfold host_tile.
  destruct (Z.leb_spec (tile !!! i) 0); [lia|done].
Qed.

(** ** The claims *)



(** C4: on the host path the constructor divides by zero whenever the
    dimension the defaulting leaves whole (the last for inner Right, the
    first for inner Left) has an unset tile hint and a span of zero: the
    loop stores 0 in [m_tile[i]] and stops at the division of that
    dimension. *)
Theorem host_zero_span_divides_by_zero (build : Build) (traits : PolicyTraits)
    (lower upper tile : list Z) (i : nat) :
  MDRangePolicy.host_path build traits = true ->
  well_sized traits lower upper tile ->
  (i < Z.to_nat (MDRangePolicy.rank traits))%nat ->
  (MDRangePolicy.inner_direction traits = MDRangePolicy.Right
   /\ Z.of_nat i = MDRangePolicy.rank traits - 1)
  \/ (MDRangePolicy.inner_direction traits = MDRangePolicy.Left /\ i = 0%nat) ->
  tile !!! i <= 0 ->
  upper !!! i = lower !!! i ->
  exists t,
    MDRangePolicy.MDRangePolicy build traits lower upper tile = DivisionByZero i t
    /\ t !!! i = 0.
Proof.
  intros Hpath Hsize Hi Hwhole Hunset Hspan.
  assert (Hnot : ~ subdivided traits i).
  { unfold subdivided, MDRangePolicy.Right, MDRangePolicy.Left in *. simpl in *. lia. }
  assert (Hzero : host_tile traits lower upper tile i = 0).
  { rewrite (proj2 (host_tile_unset traits lower upper tile i Hunset) Hnot). lia. }
  unfold MDRangePolicy.MDRangePolicy. rewrite Hpath.
  pose proof (host_loop_outcome traits lower upper tile Hsize) as Hout.
  destruct (for_loop _ _ _ _) as [p|j t|m]; [| |done].
  - destruct Hout as (_ & _ & _ & _ & _ & Hdone & _).
    destruct (Hdone i Hi) as (_ & Hnz & _). done.
  - destruct Hout as (Hj & Hjz & Htj & Hbefore & _).
    assert (j = i) as ->.
    { destruct (Nat.lt_trichotomy j i) as [Hlt|[Heq|Hgt]]; [|done|].
      - exfalso. destruct Hwhole as [[Hr Hlast]|[_ ->]]; [|lia].
        destruct (Z.leb_spec (tile !!! j) 0) as [Hle|Hpos].
        + assert (Hsub : subdivided traits j) by (left; split; [done|lia]).
          rewrite (proj1 (host_tile_unset traits lower upper tile j Hle) Hsub) in Hjz.
          done.
        + rewrite host_tile_hinted in Hjz by lia. lia.
      - exfalso. destruct (Hbefore i Hgt) as (_ & Hnz). done. }
    by exists t.
Qed.

Lemma host_zero_span_divides_by_zero_witness :
  (forall j, [0; 0] !!! j <= [10; 0] !!! j)
  /\ exists t,
       MDRangePolicy.MDRangePolicy cuda_build OpenMP_Rank2 [0; 0] [10; 0] [0; 0]
       = DivisionByZero 1 t
       /\ t !!! 1%nat = 0.
Proof.
  split.
  - intros [|[|j]]; vm_compute; discriminate.
  - apply (host_zero_span_divides_by_zero cuda_build OpenMP_Rank2
             [0; 0] [10; 0] [0; 0] 1%nat);
      [reflexivity | repeat split | vm_compute; lia
      | left; split; reflexivity | vm_compute; discriminate | reflexivity].
Defined.

(** C6: the outer and inner directions the policy resolves are the
    backend's default for the policy's execution space when the pattern
    says [Default], and the pattern's own direction otherwise. *)
Theorem resolved_directions (traits : PolicyTraits) :
  (Rank.outer_direction (iteration_pattern traits) = Default ->
     MDRangePolicy.outer_direction traits =
       Iterate_to_int (default_outer_direction (execution_space traits)))
  /\ (Rank.outer_direction (iteration_pattern traits) <> Default ->
      MDRangePolicy.outer_direction traits =
        Iterate_to_int (Rank.outer_direction (iteration_pattern traits)))
  /\ (Rank.inner_direction (iteration_pattern traits) = Default ->
      MDRangePolicy.inner_direction traits =
        Iterate_to_int (default_inner_direction (execution_space traits)))
  /\ (Rank.inner_direction (iteration_pattern traits) <> Default ->
      MDRangePolicy.inner_direction traits =
        Iterate_to_int (Rank.inner_direction (iteration_pattern traits)))
  /\ MDRangePolicy.outer_direction traits =
       Iterate_to_int
         (resolved_direction (Rank.outer_direction (iteration_pattern traits))
            (default_outer_direction (execution_space traits)))
  /\ MDRangePolicy.inner_direction traits =
       Iterate_to_int
         (resolved_direction (Rank.inner_direction (iteration_pattern traits))
            (default_inner_direction (execution_space traits))).
Proof.
  unfold MDRangePolicy.outer_direction, MDRangePolicy.inner_direction.
  destruct (Rank.outer_direction (iteration_pattern traits)),
           (Rank.inner_direction (iteration_pattern traits));
    simpl; split_and!; intros; congruence.
Qed.

(** C7: instantiating [Rank<N, ...>] trips a [static_assert] for [N = 0],
    [N = 1] and every [N >= 7]; for [N] from 2 to 6 it is accepted, with
    [rank = N] and the two directions as given. *)
Theorem Rank_static_assert (N : N) (OuterDir InnerDir : Iterate) :
  ((N = 0 \/ N = 1 \/ 7 <= N)%N ->
     exists msg, Rank.instantiate N OuterDir InnerDir = inl msg)
  /\ ((2 <= N /\ N <= 6)%N ->
      Rank.instantiate N OuterDir InnerDir =
        inr {| Rank.rank := Z.of_N N;
               Rank.outer_direction := OuterDir;
               Rank.inner_direction := InnerDir |}).
Proof.
  unfold Rank.instantiate.
  destruct (N.eqb_spec N 0) as [H0|H0], (N.eqb_spec N 1) as [H1|H1],
           (N.ltb_spec N 7) as [H7|H7]; simpl; split; intros H;
    try lia; try done; eauto.
Qed.

(** C8: the label-first overloads of [md_parallel_for] and
    [md_parallel_reduce] make the very call the label-last overloads
    make: on the host, [Kokkos::parallel_for] / [Kokkos::parallel_reduce]
    over [0, m_num_tiles) with chunk size 1 and the adapter built from the
    same geometry and functor.  The label reaches the call as its label
    only: two labels give the same work range, adapter and accumulator. *)
Theorem label_first_same_as_label_last (Functor ValueType : Type)
    (build : Build) (traits : PolicyTraits) (range : MDRangePolicy.t)
    (f : Functor) (v : ValueType) (str : string) :
  md_parallel_for_str_first (ValueType := ValueType) build traits str range f
  = md_parallel_for build traits range f str
  /\ md_parallel_reduce_str_first str range f v = md_parallel_reduce range f v str
  /\ (enable_if_host build traits = true ->
      md_parallel_for (ValueType := ValueType) build traits range f str =
        Some (Kokkos_parallel_for
                {| work_begin := 0;
                   work_end := MDRangePolicy.m_num_tiles range;
                   chunk_size := Some 1 |}
                {| g_range := range; g_f := f; g_v := None |} str))
  /\ md_parallel_reduce range f v str =
       Kokkos_parallel_reduce str
         {| work_begin := 0;
            work_end := MDRangePolicy.m_num_tiles range;
            chunk_size := Some 1 |}
         {| g_range := range; g_f := f; g_v := Some v |} v
  /\ (forall str',
        option_map work_of
          (md_parallel_for (ValueType := ValueType) build traits range f str')
        = option_map work_of (md_parallel_for build traits range f str)
        /\ option_map work_of
             (md_parallel_for_str_first (ValueType := ValueType) build traits str' range f)
           = option_map work_of (md_parallel_for build traits range f str)
        /\ work_of (md_parallel_reduce range f v str')
           = work_of (md_parallel_reduce range f v str)
        /\ work_of (md_parallel_reduce_str_first str' range f v)
           = work_of (md_parallel_reduce range f v str)).
Proof.
  unfold md_parallel_for_str_first, md_parallel_for.
  split_and!; try done.
  - by intros ->.
  - intros str'. split_and!; try done;
      destruct (enable_if_host build traits); [done| |done|];
      by destruct (__CUDACC__ build && KOKKOS_HAVE_CUDA build
                   && enable_if_cuda build traits).
Qed.

(** C9: on the host path the constructor stores the bounds it is given,
    and a dimension whose tile hint is positive keeps the hint whatever
    the span: a stored tile size differs from the hint only where the hint
    is [<= 0].  This holds of the geometry returned and of the tile array
    at a division by zero; the constructor returns when every hint is
    positive. *)
Theorem host_keeps_bounds_and_hints (build : Build) (traits : PolicyTraits)
    (lower upper tile : list Z) :
  MDRangePolicy.host_path build traits = true ->
  well_sized traits lower upper tile ->
  match MDRangePolicy.MDRangePolicy build traits lower upper tile with
  | Returned p =>
      MDRangePolicy.m_lower p = lower
      /\ MDRangePolicy.m_upper p = upper
      /\ forall i, (i < Z.to_nat (MDRangePolicy.rank traits))%nat ->
           (1 <= tile !!! i -> MDRangePolicy.m_tile p !!! i = tile !!! i)
           /\ (MDRangePolicy.m_tile p !!! i <> tile !!! i -> tile !!! i <= 0)
  | DivisionByZero j t => forall i, 1 <= tile !!! i -> t !!! i = tile !!! i
  | RuntimeException _ => False
  end
  /\ ((forall i, (i < Z.to_nat (MDRangePolicy.rank traits))%nat -> 1 <= tile !!! i) ->
      exists p,
        MDRangePolicy.MDRangePolicy build traits lower upper tile = Returned p
        /\ MDRangePolicy.m_lower p = lower
        /\ MDRangePolicy.m_upper p = upper
        /\ MDRangePolicy.m_tile p = tile).
Proof.
  intros Hpath Hsize.
  unfold MDRangePolicy.MDRangePolicy. rewrite Hpath.
  pose proof (host_loop_outcome traits lower upper tile Hsize) as Hout.
  pose proof (host_loop_returns traits lower upper tile Hsize) as Hret.
  destruct (for_loop _ _ _ _) as [p|j t|m]; [| |done].
  - destruct Hout as (Hlo & Hup & Hlen & _ & _ & Hdone & _).
    assert (Hkeep : forall i, (i < Z.to_nat (MDRangePolicy.rank traits))%nat ->
              1 <= tile !!! i -> MDRangePolicy.m_tile p !!! i = tile !!! i).
    { intros i Hi Hpos. destruct (Hdone i Hi) as (-> & _).
      by apply host_tile_hinted. }
    split.
    + split_and!; try done. intros i Hi. split; [by apply Hkeep|].
      intros Hne. destruct (Z.leb_spec (tile !!! i) 0); [done|].
      destruct Hne. apply Hkeep; [done|lia].
    + intros Hall. exists p. split_and!; try done.
      destruct Hsize as (_ & _ & Htile).
      apply (list_eq_same_length _ _ (Z.to_nat (MDRangePolicy.rank traits)));
        [done|lia|].
      intros i x y Hi Hx Hy.
      apply list_lookup_total_correct in Hx, Hy. subst x y.
      apply Hkeep; [done|by apply Hall].
  - destruct Hout as (Hj & Hjz & Htj & Hbefore & Hafter). split.
    + intros i Hpos.
      destruct (Nat.lt_trichotomy i j) as [Hlt|[->|Hgt]].
      * destruct (Hbefore i Hlt) as (-> & _). by apply host_tile_hinted.
      * rewrite host_tile_hinted in Hjz by done. lia.
      * by apply Hafter.
    + intros Hall. exfalso.
      rewrite host_tile_hinted in Hjz by by apply Hall.
      specialize (Hall j Hj). lia.
Qed.

Lemma host_keeps_bounds_and_hints_witness :
  exists p,
    MDRangePolicy.MDRangePolicy cuda_build OpenMP_Rank2 [0; 0] [10; 10] [20; 3]
    = Returned p
    /\ MDRangePolicy.m_lower p = [0; 0]
    /\ MDRangePolicy.m_upper p = [10; 10]
    /\ MDRangePolicy.m_tile p = [20; 3].
Proof.
  apply (proj2 (host_keeps_bounds_and_hints cuda_build OpenMP_Rank2
                  [0; 0] [10; 10] [20; 3] eq_refl
                  (conj eq_refl (conj eq_refl eq_refl)))).
  intros [|[|i]] Hi; vm_compute; [discriminate | discriminate | vm_compute in Hi; lia].
Defined.

(** C10: the backend default outer and inner directions are [Right] for
    every execution space, so a direction the pattern leaves [Default]
    resolves to [Right] on every backend. *)
Theorem backend_defaults_are_Right (space : ExecSpace) :
  default_outer_direction space = Right
  /\ default_inner_direction space = Right
  /\ forall traits,
       execution_space traits = space ->
       (Rank.outer_direction (iteration_pattern traits) = Default ->
          MDRangePolicy.outer_direction traits = MDRangePolicy.Right)
       /\ (Rank.inner_direction (iteration_pattern traits) = Default ->
           MDRangePolicy.inner_direction traits = MDRangePolicy.Right).
Proof.
  split_and!; try done.
  intros traits _.
  unfold MDRangePolicy.outer_direction, MDRangePolicy.inner_direction.
  by split; intros ->.
Qed.

(** ** The host constructor: when it returns, and what it returns *)

Lemma host_returned_inv (build : Build) (traits : PolicyTraits)
    (lower upper tile : list Z) (p : MDRangePolicy.t) :
  MDRangePolicy.host_path build traits = true ->
  well_sized traits lower upper tile ->
  MDRangePolicy.MDRangePolicy build traits lower upper tile = Returned p ->
  host_inv traits lower upper tile (Z.to_nat (MDRangePolicy.rank traits)) p.
Proof.
  intros Hpath Hsize Hret.
  unfold MDRangePolicy.MDRangePolicy in Hret. rewrite Hpath in Hret.
  pose proof (host_loop_outcome traits lower upper tile Hsize) as Hout.
  by rewrite Hret in Hout.
Qed.

Lemma subdivided_dec (traits : PolicyTraits) (i : nat) :
  subdivided traits i \/ ~ subdivided traits i.
Proof.
  pose proof (subdivided_test traits i) as Ht.
  match type of Ht with ?b = true <-> _ => destruct b end.
  - left. by apply Ht.
  - right. intros Hs. apply Ht in Hs. done.
Qed.

(** The resolved tile size of a dimension is zero exactly when the hint
    is unset, the dimension is not subdivided, and its span is zero. *)
Lemma host_tile_zero_iff (traits : PolicyTraits) (lower upper tile : list Z)
    (i : nat) :
  host_tile traits lower upper tile i = 0
  <-> tile !!! i <= 0 /\ ~ subdivided traits i /\ upper !!! i = lower !!! i.
Proof.
  destruct (Z.leb_spec (tile !!! i) 0) as [Hle|Hpos].
  - destruct (host_tile_unset traits lower upper tile i Hle) as [Hs Hn].
    destruct (subdivided_dec traits i) as [Hsub|Hsub].
    + rewrite (Hs Hsub). split; [done|]. intros (_ & Hno & _). done.
    + rewrite (Hn Hsub). split; [intros; split_and!; [done..|lia]|].
      intros (_ & _ & ->). lia.
  - rewrite host_tile_hinted by lia. split; [lia|]. intros (? & _). lia.
Qed.

Lemma host_tile_positive (traits : PolicyTraits) (lower upper tile : list Z)
    (i : nat) :
  lower !!! i <= upper !!! i ->
  host_tile traits lower upper tile i <> 0 ->
  1 <= host_tile traits lower upper tile i.
Proof.
  intros Hb Hnz.
  destruct (Z.leb_spec (tile !!! i) 0) as [Hle|Hpos].
  - destruct (host_tile_unset traits lower upper tile i Hle) as [Hs Hn].
    destruct (subdivided_dec traits i) as [Hsub|Hsub].
    + rewrite (Hs Hsub). lia.
    + rewrite (Hn Hsub) in *. lia.
  - rewrite host_tile_hinted by lia. lia.
Qed.

Lemma product_nil_cons (x : Z) (l : list Z) : product (x :: l) = x * product l.
Proof. done. Qed.

Lemma product_positive (l : list Z) :
  Forall (fun x => 1 <= x) l -> 1 <= product l.
Proof.
  induction 1 as [|x l Hx _ IH]; [done|].
  rewrite product_nil_cons. nia.
Qed.

Lemma product_zero (l : list Z) (i : nat) :
  (i < length l)%nat -> l !!! i = 0 -> product l = 0.
Proof.
  revert i. induction l as [|x l IH]; intros i Hi Hz; simpl in Hi; [lia|].
  rewrite product_nil_cons. destruct i as [|i].
  - simpl in Hz. subst x. lia.
  - rewrite (IH i); [lia|lia|done].
Qed.

Lemma ceil_div_positive (a b : Z) : 1 <= a -> 1 <= b -> 1 <= ceil_div a b.
Proof.
  intros Ha Hb. pose proof (ceil_div_spec a b ltac:(lia)) as Hc. nia.
Qed.

(** X2: on the host path the constructor returns a geometry exactly when
    no dimension has at once an unset tile hint, no subdivision and a span
    of zero; it divides by zero otherwise. *)
Theorem host_returns_iff (build : Build) (traits : PolicyTraits)
    (lower upper tile : list Z) :
  MDRangePolicy.host_path build traits = true ->
  well_sized traits lower upper tile ->
  ((exists p,
      MDRangePolicy.MDRangePolicy build traits lower upper tile = Returned p)
   <-> (forall i, (i < Z.to_nat (MDRangePolicy.rank traits))%nat ->
          ~ (tile !!! i <= 0 /\ ~ subdivided traits i
             /\ upper !!! i = lower !!! i)))
  /\ ((exists j t,
         MDRangePolicy.MDRangePolicy build traits lower upper tile
         = DivisionByZero j t)
      <-> (exists i, (i < Z.to_nat (MDRangePolicy.rank traits))%nat
             /\ tile !!! i <= 0 /\ ~ subdivided traits i
             /\ upper !!! i = lower !!! i)).
Proof.
  intros Hpath Hsize.
  pose proof (host_loop_outcome traits lower upper tile Hsize) as Hout.
  pose proof (host_loop_returns traits lower upper tile Hsize) as Hret.
  unfold MDRangePolicy.MDRangePolicy. rewrite Hpath.
  destruct (for_loop _ _ _ _) as [p|j t|m]; [| |done].
  - destruct Hout as (_ & _ & _ & _ & _ & Hdone & _).
    assert (Hnz : forall i, (i < Z.to_nat (MDRangePolicy.rank traits))%nat ->
              ~ (tile !!! i <= 0 /\ ~ subdivided traits i
                 /\ upper !!! i = lower !!! i)).
    { intros i Hi Hbad. destruct (Hdone i Hi) as (_ & Hne & _).
      apply Hne. by apply host_tile_zero_iff. }
    split; split.
    + done.
    + intros _. by exists p.
    + intros (j & t & Heq). done.
    + intros (i & Hi & Hbad). destruct (Hnz i Hi Hbad).
  - destruct Hout as (Hj & Hjz & _).
    apply host_tile_zero_iff in Hjz.
    split; split.
    + intros (p & Heq). done.
    + intros Hall. destruct (Hall j Hj Hjz).
    + intros _. by exists j.
    + intros _. by exists j, t.
Qed.

Lemma host_returns_iff_witness :
  exists p,
    MDRangePolicy.MDRangePolicy cuda_build OpenMP_Rank2 [0; 0] [10; 0] [0; 4]
    = Returned p.
Proof.
  apply (proj1 (host_returns_iff cuda_build OpenMP_Rank2 [0; 0] [10; 0] [0; 4]
                  eq_refl (conj eq_refl (conj eq_refl eq_refl)))).
  intros i Hi (Hunset & Hwhole & Hspan).
  destruct i as [|[|i]].
  - apply Hwhole. left. split; vm_compute; reflexivity.
  - vm_compute in Hunset. by apply Hunset.
  - vm_compute in Hi. lia.
Defined.

(** X7: on the host path, a dimension whose span is zero (or negative but
    above minus its tile size) while its resolved tile size is at least 1
    has a tile count of 0, and then [m_num_tiles] is 0: the geometry
    holds no tile at all. *)
Theorem host_empty_dimension_no_tiles (build : Build) (traits : PolicyTraits)
    (lower upper tile : list Z) (p : MDRangePolicy.t) (i : nat) :
  MDRangePolicy.host_path build traits = true ->
  well_sized traits lower upper tile ->
  MDRangePolicy.MDRangePolicy build traits lower upper tile = Returned p ->
  (i < Z.to_nat (MDRangePolicy.rank traits))%nat ->
  1 <= MDRangePolicy.m_tile p !!! i ->
  - MDRangePolicy.m_tile p !!! i < upper !!! i - lower !!! i <= 0 ->
  MDRangePolicy.m_tile_end p !!! i = 0
  /\ MDRangePolicy.m_num_tiles p = 0.
Proof.
  intros Hpath Hsize Hret Hi Hpos Hspan.
  destruct (host_returned_inv build traits lower upper tile p Hpath Hsize Hret)
    as (_ & _ & _ & Hlen & _ & Hdone & Hnum).
  destruct (Hdone i Hi) as (Htl & _ & Hend).
  assert (Hzero : MDRangePolicy.m_tile_end p !!! i = 0).
  { rewrite Hend, <- Htl. apply Z.quot_small. lia. }
  split; [done|].
  rewrite Hnum, take_ge by lia. apply (product_zero _ i); [lia|done].
Qed.

Lemma host_empty_dimension_no_tiles_witness :
  [5; 0] !!! 1%nat = 0 /\ 0 = 0.
Proof.
  apply (host_empty_dimension_no_tiles cuda_build OpenMP_Rank2
           [0; 0] [10; 0] [0; 4]
           {| MDRangePolicy.m_lower := [0; 0];
              MDRangePolicy.m_upper := [10; 0];
              MDRangePolicy.m_tile := [2; 4];
              MDRangePolicy.m_tile_end := [5; 0];
              MDRangePolicy.m_num_tiles := 0 |} 1%nat
           eq_refl (conj eq_refl (conj eq_refl eq_refl)) eq_refl);
    [vm_compute; lia | by vm_compute | by vm_compute].
Defined.

(** ** The Cuda constructor: tile counts *)

Lemma cuda_body_other_counts (lower upper : list Z) (k : nat)
    (p p' : MDRangePolicy.t) :
  MDRangePolicy.cuda_body lower upper k p = Returned p' ->
  forall j, j <> k ->
    MDRangePolicy.m_tile_end p' !!! j = MDRangePolicy.m_tile_end p !!! j.
Proof.
  unfold MDRangePolicy.cuda_body, MDRangePolicy.count_tiles.
  intros Hret j Hj.
  destruct (MDRangePolicy.m_tile p !!! k <=? 0); simpl in Hret;
    match type of Hret with (if ?c then _ else _) = _ => destruct c end;
    try done; injection Hret as <-; simpl;
    by rewrite list_lookup_total_insert_ne.
Qed.

(** With the first hint unset the Cuda loop holds 8 in every dimension
    from its first pass on. *)
Lemma cuda_tile_unhinted (tile : list Z) (k : nat) :
  (0 < length tile)%nat -> tile !!! 0%nat <= 0 ->
  cuda_tile tile (S k) = replicate (length tile) 8.
Proof.
  intros Hlen H0. unfold cuda_tile. rewrite decide_False; [done|].
  intros Hall.
  pose proof (Forall_lookup_total_1 (fun x => 0 < x) _ 0%nat Hall) as Hpos.
  rewrite length_take, lookup_total_take_lt in Hpos by lia.
  specialize (Hpos ltac:(lia)). lia.
Qed.

Lemma product_replicate (n : nat) (x : Z) :
  product (replicate n x) = x ^ Z.of_nat n.
Proof.
  induction n as [|n IH]; [done|].
  rewrite Nat2Z.inj_succ, Z.pow_succ_r by lia.
  change (replicate (S n) x) with (x :: replicate n x).
  by rewrite product_nil_cons, IH.
Qed.

Section CudaCounts.

Variable traits : PolicyTraits.
Variables lower upper tile : list Z.
Hypothesis Hsize : well_sized traits lower upper tile.

Lemma cuda_body_step_counts (k : nat) (p : MDRangePolicy.t) :
  (k < Z.to_nat (MDRangePolicy.rank traits))%nat ->
  cuda_inv traits lower upper tile k p /\ cuda_counts lower upper tile k p ->
  exists p',
    MDRangePolicy.cuda_body lower upper k p = Returned p'
    /\ cuda_inv traits lower upper tile (S k) p'
    /\ cuda_counts lower upper tile (S k) p'.
Proof.
  intros Hk (Hinv & Hcounts).
  destruct (cuda_body_step traits lower upper tile Hsize k p Hk Hinv)
    as (p' & Hret & Hinv' & Hend).
  exists p'. split_and!; try done.
  intros j Hj. destruct (decide (j = k)) as [->|Hne]; [done|].
  rewrite (cuda_body_other_counts lower upper k p p' Hret j Hne).
  apply Hcounts. lia.
Qed.

(** Every outcome of the constructor on the Cuda path, with its tile
    counts. *)
Lemma cuda_outcome_counts (build : Build) :
  MDRangePolicy.host_path build traits = false ->
  exists p,
    cuda_inv traits lower upper tile (Z.to_nat (MDRangePolicy.rank traits)) p
    /\ cuda_counts lower upper tile (Z.to_nat (MDRangePolicy.rank traits)) p
    /\ MDRangePolicy.MDRangePolicy build traits lower upper tile =
       if product (MDRangePolicy.m_tile p) >? 1024
       then RuntimeException MDRangePolicy.tile_dims_message
       else Returned p.
Proof.
  intros Hpath.
  pose proof (for_loop_ind
                (fun k p => cuda_inv traits lower upper tile k p
                            /\ cuda_counts lower upper tile k p)
                (fun _ => False)
                (MDRangePolicy.cuda_body lower upper)
                (Z.to_nat (MDRangePolicy.rank traits)) 0%nat
                (MDRangePolicy.initial traits lower upper tile)) as Hind.
  simpl in Hind.
  assert (Hloop :
    match for_loop 0 (Z.to_nat (MDRangePolicy.rank traits))
            (MDRangePolicy.cuda_body lower upper)
            (MDRangePolicy.initial traits lower upper tile) with
    | Returned p =>
        cuda_inv traits lower upper tile (Z.to_nat (MDRangePolicy.rank traits)) p
        /\ cuda_counts lower upper tile (Z.to_nat (MDRangePolicy.rank traits)) p
    | _ => False
    end).
  { apply Hind.
    - split; [apply (cuda_inv_initial traits lower upper tile)|].
      intros j Hj. lia.
    - intros i p0 Hi Hp0.
      destruct (cuda_body_step_counts i p0 ltac:(lia) Hp0) as (p' & -> & Hp').
      done. }
  unfold MDRangePolicy.MDRangePolicy. rewrite Hpath.
  destruct (for_loop _ _ _ _) as [p| |]; [|done..].
  destruct Hloop as (Hinv & Hcounts).
  exists p. split_and!; try done. cbn [bind].
  rewrite (check_loop_product traits); [done|].
  destruct Hinv as (_ & _ & -> & _). rewrite length_cuda_tile.
  by destruct Hsize as (_ & _ & ->).
Qed.

End CudaCounts.

(** X12: on the Cuda path, with no tile hint at all and a rank of 4 or
    more, the constructor always throws: the default tile volume
    [8 ^ rank] exceeds 1024. *)
Theorem cuda_unhinted_rank4_refused (build : Build) (traits : PolicyTraits)
    (lower upper tile : list Z) :
  MDRangePolicy.host_path build traits = false ->
  well_sized traits lower upper tile ->
  (forall i, (i < Z.to_nat (MDRangePolicy.rank traits))%nat -> tile !!! i <= 0) ->
  4 <= MDRangePolicy.rank traits ->
  MDRangePolicy.MDRangePolicy build traits lower upper tile =
    RuntimeException MDRangePolicy.tile_dims_message.
Proof.
  intros Hpath Hsize Hall Hrank.
  destruct (cuda_outcome_counts traits lower upper tile Hsize build Hpath)
    as (p & (_ & _ & Htl & _) & _ & ->).
  destruct Hsize as (_ & _ & Htile).
  assert (Hn : Z.to_nat (MDRangePolicy.rank traits)
               = S (Z.to_nat (MDRangePolicy.rank traits) - 1)) by lia.
  rewrite Hn, cuda_tile_unhinted in Htl; [|lia|apply Hall; lia].
  rewrite Htl, product_replicate, Htile, Z2Nat.id by lia.
  pose proof (Z.pow_le_mono_r 8 4 (MDRangePolicy.rank traits) ltac:(lia) Hrank)
    as Hpow.
  change (8 ^ 4) with 4096 in Hpow.
  destruct (Z.gtb_spec (8 ^ MDRangePolicy.rank traits) 1024); [done|lia].
Qed.

Lemma cuda_unhinted_rank4_refused_witness :
  MDRangePolicy.MDRangePolicy cuda_build Cuda_Rank4
    [0; 0; 0; 0] [10; 10; 10; 10] [0; 0; 0; 0]
  = RuntimeException MDRangePolicy.tile_dims_message.
Proof.
  apply (cuda_unhinted_rank4_refused cuda_build Cuda_Rank4
           [0; 0; 0; 0] [10; 10; 10; 10] [0; 0; 0; 0]
           eq_refl (conj eq_refl (conj eq_refl eq_refl)));
    [|by vm_compute].
  intros [|[|[|[|i]]]] Hi;
    [by vm_compute | by vm_compute | by vm_compute | by vm_compute
    | vm_compute in Hi; lia].
Defined.

(** ** Directions and the default tiling *)

(** X13: the outer and the inner direction a policy resolves are each
    [Left] or [Right], never [Default], whatever the pattern and the
    execution space. *)
Theorem resolved_direction_Left_or_Right (traits : PolicyTraits) :
  (MDRangePolicy.outer_direction traits = MDRangePolicy.Left
   \/ MDRangePolicy.outer_direction traits = MDRangePolicy.Right)
  /\ (MDRangePolicy.inner_direction traits = MDRangePolicy.Left
      \/ MDRangePolicy.inner_direction traits = MDRangePolicy.Right)
  /\ MDRangePolicy.outer_direction traits <> Iterate_to_int Default
  /\ MDRangePolicy.inner_direction traits <> Iterate_to_int Default.
Proof.
  unfold MDRangePolicy.outer_direction, MDRangePolicy.inner_direction.
  destruct (Rank.outer_direction (iteration_pattern traits)),
           (Rank.inner_direction (iteration_pattern traits));
    simpl; split_and!; (by left) || (by right) || done.
Qed.




(** ** Dispatch *)

(** X15: [md_parallel_for] follows the path the constructor took.  For a
    policy the constructor builds on its host path, both overloads call
    [Kokkos::parallel_for]; for a policy it builds on its Cuda path, both
    run the [DeviceIterateTile] closure when the Cuda compiler compiles
    the header, and no overload is viable otherwise. *)
Theorem md_parallel_for_follows_constructor (Functor ValueType : Type)
    (build : Build) (traits : PolicyTraits) (range : MDRangePolicy.t)
    (f : Functor) (str : string) :
  (MDRangePolicy.host_path build traits = true ->
     md_parallel_for (ValueType := ValueType) build traits range f str =
       Some (Kokkos_parallel_for
               (set_chunk_size 1
                  (range_policy 0 (MDRangePolicy.m_num_tiles range)))
               {| g_range := range; g_f := f; g_v := None |} str)
     /\ md_parallel_for_str_first (ValueType := ValueType) build traits str range f =
        md_parallel_for build traits range f str)
  /\ (MDRangePolicy.host_path build traits = false ->
      md_parallel_for (ValueType := ValueType) build traits range f str =
        (if __CUDACC__ build
         then Some (closure_execute {| closure_range := range; closure_f := f |})
         else None)
      /\ md_parallel_for_str_first (ValueType := ValueType) build traits str range f =
         md_parallel_for build traits range f str).
Proof.
  unfold md_parallel_for, md_parallel_for_str_first, enable_if_host,
    enable_if_cuda, MDRangePolicy.host_path.
  destruct (KOKKOS_HAVE_CUDA build), (is_Cuda (execution_space traits)),
    (__CUDACC__ build); simpl; split; intros H; try done.
Qed.

(** ** Arithmetic of [index_type] *)

Lemma modulus_half (I : IndexType) :
  modulus I = 2 * half_modulus I /\ 2147483648 <= half_modulus I.
Proof. destruct I; by vm_compute. Qed.

Lemma modulus_positive (I : IndexType) : 0 < modulus I.
Proof. pose proof (modulus_half I). lia. Qed.

Lemma wrap_fits (I : IndexType) (z : Z) : fits I z -> wrap I z = z.
Proof.
  pose proof (modulus_half I) as [Hm Hh].
  unfold fits, wrap, idx_min, idx_max.
  destruct (is_signed I); intros Hz; rewrite Z.mod_small; lia.
Qed.

Lemma fits_wrap (I : IndexType) (z : Z) : fits I (wrap I z).
Proof.
  pose proof (modulus_half I) as [Hm Hh].
  unfold fits, wrap, idx_min, idx_max.
  destruct (is_signed I).
  - pose proof (Z.mod_pos_bound (z + half_modulus I) (modulus I) ltac:(lia)). lia.
  - pose proof (Z.mod_pos_bound z (modulus I) ltac:(lia)). lia.
Qed.

Lemma wrap_mod (I : IndexType) (z : Z) : wrap I z mod modulus I = z mod modulus I.
Proof.
  pose proof (modulus_positive I).
  unfold wrap. destruct (is_signed I); [|apply Z.mod_mod; lia].
  rewrite Zminus_mod_idemp_l. f_equal. lia.
Qed.

Lemma wrap_congr (I : IndexType) (a b : Z) :
  a mod modulus I = b mod modulus I -> wrap I a = wrap I b.
Proof.
  intros Hab. unfold wrap. destruct (is_signed I); [|done].
  by rewrite <- (Zplus_mod_idemp_l a), Hab, Zplus_mod_idemp_l.
Qed.

Lemma wrap_mul_l (I : IndexType) (a b : Z) :
  wrap I (wrap I a * b) = wrap I (a * b).
Proof.
  apply wrap_congr.
  by rewrite <- Zmult_mod_idemp_l, wrap_mod, Zmult_mod_idemp_l.
Qed.

Lemma wrap_sub_l (I : IndexType) (a b : Z) :
  wrap I (wrap I a - b) = wrap I (a - b).
Proof.
  apply wrap_congr.
  by rewrite <- Zminus_mod_idemp_l, wrap_mod, Zminus_mod_idemp_l.
Qed.

(** The difference of two values of the type is stored as zero exactly
    when they are equal. *)
Lemma idx_sub_zero (I : IndexType) (a b : Z) :
  fits I a -> fits I b -> idx_sub I a b = 0 <-> a = b.
Proof.
  intros Ha Hb. unfold idx_sub. split.
  - intros Hz. pose proof (wrap_mod I (a - b)) as Hm. rewrite Hz in Hm.
    pose proof (modulus_half I) as [Hmh Hh].
    rewrite Z.mod_0_l in Hm by lia.
    pose proof (Z.div_mod (a - b) (modulus I) ltac:(lia)) as Hdm.
    rewrite <- Hm in Hdm.
    set (q := (a - b) / modulus I) in Hdm.
    assert (Hbound : - modulus I < a - b < modulus I).
    { revert Ha Hb. unfold fits, idx_min, idx_max.
      destruct (is_signed I); lia. }
    assert (q = 0) by (destruct (Z.lt_trichotomy q 0) as [|[|]]; nia).
    subst q. lia.
  - intros ->. rewrite Z.sub_diag. apply wrap_fits.
    pose proof (modulus_half I) as [Hmh Hh].
    unfold fits, idx_min, idx_max. destruct (is_signed I); lia.
Qed.

Lemma fits_small (I : IndexType) (z : Z) : 0 <= z <= 2147483647 -> fits I z.
Proof.
  pose proof (modulus_half I) as [Hmh Hh].
  unfold fits, idx_min, idx_max. destruct (is_signed I); lia.
Qed.

Lemma fits_between (I : IndexType) (a z : Z) :
  0 <= z <= a -> fits I a -> fits I z.
Proof.
  pose proof (modulus_half I) as [Hmh Hh].
  unfold fits, idx_min, idx_max. destruct (is_signed I); lia.
Qed.

(** The numerator [span + tile - 1] is computed modulo the type, whatever
    the order of the two steps. *)
Lemma fixed_count_wrap (I : IndexType) (span tile : Z) :
  fixed_count I span tile = wrap I (Z.quot (wrap I (span + tile - 1)) tile).
Proof.
  unfold fixed_count, idx_div, idx_sub, idx_add.
  by rewrite wrap_sub_l.
Qed.

(** In the range of the type the stored count is the ceiling of
    [span / tile]. *)
Lemma fixed_count_ceil_div (I : IndexType) (span tile : Z) :
  0 <= span -> 1 <= tile -> fits I (span + tile - 1) ->
  fixed_count I span tile = ceil_div span tile.
Proof.
  intros Hs Ht Hfit.
  rewrite fixed_count_wrap, (wrap_fits I _ Hfit), quot_ceil_div by lia.
  apply wrap_fits. apply (fits_between I (span + tile - 1)); [|done].
  pose proof (ceil_div_spec span tile ltac:(lia)). nia.
Qed.

(** A numerator below the tile size gives no tile. *)
Lemma fixed_count_small (I : IndexType) (span tile : Z) :
  1 <= tile -> fits I tile -> - tile < span <= 0 ->
  fixed_count I span tile = 0.
Proof.
  intros Ht Hfit Hs.
  assert (Hnum : fits I (span + tile - 1)).
  { apply (fits_between I tile); [lia|done]. }
  rewrite fixed_count_wrap, (wrap_fits I _ Hnum), Z.quot_small by lia.
  apply wrap_fits. by apply fits_small.
Qed.

Lemma wrap_product_zero (I : IndexType) (l : list Z) (i : nat) :
  (i < length l)%nat -> l !!! i = 0 -> wrap I (product l) = 0.
Proof.
  intros Hi Hz. rewrite (product_zero l i Hi Hz).
  apply wrap_fits. by apply fits_small.
Qed.

(** ** The host loop on [index_type] *)

Lemma fixed_host_body_resolve (I : IndexType) (traits : PolicyTraits)
    (lower upper tile : list Z) (i : nat) (p : MDRangePolicy.t) :
  MDRangePolicy.m_tile p !!! i = tile !!! i ->
  (i < length (MDRangePolicy.m_tile p))%nat ->
  exists tl,
    FixedWidth.host_body I traits lower upper i p =
      FixedWidth.count_tiles I i (idx_sub I (upper !!! i) (lower !!! i))
        (MDRangePolicy.set_tile tl p)
    /\ tl !!! i = fixed_host_tile I traits lower upper tile i
    /\ length tl = length (MDRangePolicy.m_tile p)
    /\ (forall j, j <> i -> tl !!! j = MDRangePolicy.m_tile p !!! j).
Proof.
  intros Hi Hlen. unfold FixedWidth.host_body, fixed_host_tile. rewrite Hi.
  destruct (tile !!! i <=? 0).
  - match goal with |- context [if ?c then _ else _] => destruct c end.
    + exists (<[ i := 2 ]> (MDRangePolicy.m_tile p)). split_and!; [done| |..].
      * by apply list_lookup_total_insert_eq.
      * by rewrite length_insert.
      * intros j Hj. by apply list_lookup_total_insert_ne.
    + exists (<[ i := idx_sub I (upper !!! i) (lower !!! i) ]>
                (MDRangePolicy.m_tile p)).
      split_and!; [done| |..].
      * by apply list_lookup_total_insert_eq.
      * by rewrite length_insert.
      * intros j Hj. by apply list_lookup_total_insert_ne.
  - exists (MDRangePolicy.m_tile p). rewrite set_tile_same. by split_and!.
Qed.

Lemma wrap_product_take_S (I : IndexType) (l : list Z) (k : nat) :
  (k < length l)%nat ->
  idx_mul I (wrap I (product (take k l))) (l !!! k)
  = wrap I (product (take (S k) l)).
Proof.
  intros Hk. unfold idx_mul. by rewrite wrap_mul_l, product_take_S.
Qed.

Section FixedHost.

Variable I : IndexType.
Variable traits : PolicyTraits.
Variables lower upper tile : list Z.
Hypothesis Hsize : well_sized traits lower upper tile.

Lemma fixed_host_inv_initial :
  fixed_host_inv I traits lower upper tile 0
    (MDRangePolicy.initial traits lower upper tile).
Proof.
  unfold fixed_host_inv, MDRangePolicy.initial; simpl.
  split_and!; try done.
  - by rewrite length_replicate.
  - intros j Hj. lia.
  - symmetry. apply wrap_fits. by apply fits_small.
Qed.

Lemma fixed_host_body_step (k : nat) (p : MDRangePolicy.t) :
  (k < Z.to_nat (MDRangePolicy.rank traits))%nat ->
  fixed_host_inv I traits lower upper tile k p ->
  match FixedWidth.host_body I traits lower upper k p with
  | Returned p' => fixed_host_inv I traits lower upper tile (S k) p'
  | DivisionByZero j t =>
      fixed_host_stop I traits lower upper tile (DivisionByZero j t)
  | RuntimeException m =>
      fixed_host_stop I traits lower upper tile (RuntimeException m)
  end.
Proof.
  intros Hk (Hlo & Hup & Hlt & Hle & Hrest & Hdone & Hnum).
  destruct Hsize as (_ & _ & Htile).
  destruct (fixed_host_body_resolve I traits lower upper tile k p)
    as (tl & -> & Hk' & Hltl & Hother).
  { apply Hrest. lia. }
  { lia. }
  unfold FixedWidth.count_tiles; simpl. rewrite Hk'.
  destruct (Z.eqb_spec (fixed_host_tile I traits lower upper tile k) 0)
    as [Hz|Hz]; simpl.
  { split_and!; try done. intros j' Hj'. by destruct (Hdone j' Hj') as (_ & ? & _). }
  unfold fixed_host_inv; simpl. split_and!; try done.
  - lia.
  - by rewrite length_insert.
  - intros j Hj. rewrite Hother by lia. apply Hrest. lia.
  - intros j Hj. destruct (decide (j = k)) as [->|Hne].
    + rewrite Hk'. split_and!; try done.
      rewrite list_lookup_total_insert_eq by lia. done.
    + rewrite Hother by done.
      rewrite list_lookup_total_insert_ne by done.
      apply Hdone. lia.
  - rewrite Hnum.
    rewrite <- (take_insert_ge (MDRangePolicy.m_tile_end p) k k
                  (idx_div I
                     (idx_sub I
                        (idx_add I (idx_sub I (upper !!! k) (lower !!! k))
                           (fixed_host_tile I traits lower upper tile k)) 1)
                     (fixed_host_tile I traits lower upper tile k)))
      by lia.
    apply wrap_product_take_S. rewrite length_insert. lia.
Qed.

(** Every outcome of the host loop on [index_type]. *)
Lemma fixed_host_loop_outcome :
  match for_loop 0 (Z.to_nat (MDRangePolicy.rank traits))
          (FixedWidth.host_body I traits lower upper)
          (MDRangePolicy.initial traits lower upper tile) with
  | Returned p =>
      fixed_host_inv I traits lower upper tile
        (Z.to_nat (MDRangePolicy.rank traits)) p
  | DivisionByZero j t =>
      fixed_host_stop I traits lower upper tile (DivisionByZero j t)
  | RuntimeException m =>
      fixed_host_stop I traits lower upper tile (RuntimeException m)
  end.
Proof.
  apply (for_loop_ind (fixed_host_inv I traits lower upper tile)
           (fixed_host_stop I traits lower upper tile)).
  - apply fixed_host_inv_initial.
  - intros i p Hi Hp. apply fixed_host_body_step; [lia|done].
Qed.

End FixedHost.

Lemma fixed_host_returned_inv (I : IndexType)
    (Array_assign : list Z -> Z -> list Z) (build : Build)
    (traits : PolicyTraits) (lower upper tile : list Z) (p : MDRangePolicy.t) :
  MDRangePolicy.host_path build traits = true ->
  well_sized traits lower upper tile ->
  FixedWidth.MDRangePolicy I Array_assign build traits lower upper tile
  = Returned p ->
  fixed_host_inv I traits lower upper tile
    (Z.to_nat (MDRangePolicy.rank traits)) p.
Proof.
  intros Hpath Hsize Hret.
  unfold FixedWidth.MDRangePolicy in Hret. rewrite Hpath in Hret.
  pose proof (fixed_host_loop_outcome I traits lower upper tile Hsize) as Hout.
  by rewrite Hret in Hout.
Qed.

(** In the range of the type the host loop resolves the tile sizes of
    [host_tile]. *)
Lemma fixed_host_tile_fits (I : IndexType) (traits : PolicyTraits)
    (lower upper tile : list Z) (i : nat) :
  fits I (upper !!! i - lower !!! i) ->
  fixed_host_tile I traits lower upper tile i
  = host_tile traits lower upper tile i.
Proof.
  intros Hfit. unfold fixed_host_tile, host_tile, idx_sub.
  by rewrite (wrap_fits I _ Hfit).
Qed.

(** When every span fits the type, the host loop on [index_type] and the
    host loop on [Z] return together, with the same bounds and tile sizes,
    and divide by zero together, in the same dimension. *)
Lemma host_constructors_agree (I : IndexType)
    (Array_assign : list Z -> Z -> list Z) (build : Build)
    (traits : PolicyTraits) (lower upper tile : list Z) :
  MDRangePolicy.host_path build traits = true ->
  well_sized traits lower upper tile ->
  (forall i, (i < Z.to_nat (MDRangePolicy.rank traits))%nat ->
     fits I (upper !!! i - lower !!! i)) ->
  match MDRangePolicy.MDRangePolicy build traits lower upper tile,
        FixedWidth.MDRangePolicy I Array_assign build traits lower upper tile
  with
  | Returned p, Returned p' =>
      MDRangePolicy.m_lower p' = MDRangePolicy.m_lower p
      /\ MDRangePolicy.m_upper p' = MDRangePolicy.m_upper p
      /\ MDRangePolicy.m_tile p' = MDRangePolicy.m_tile p
  | DivisionByZero j _, DivisionByZero j' _ => j' = j
  | _, _ => False
  end.
Proof.
  intros Hpath Hsize Hfits.
  unfold MDRangePolicy.MDRangePolicy, FixedWidth.MDRangePolicy. rewrite Hpath.
  pose proof (host_loop_outcome traits lower upper tile Hsize) as Hout.
  pose proof (fixed_host_loop_outcome I traits lower upper tile Hsize) as Hout'.
  destruct (for_loop _ _ (MDRangePolicy.host_body _ _ _) _) as [p|j t|m];
    destruct (for_loop _ _ (FixedWidth.host_body _ _ _ _) _) as [p'|j' t'|m'];
    try done.
  - destruct Hout as (Hlo & Hup & Hlen & _ & _ & Hdone & _).
    destruct Hout' as (Hlo' & Hup' & Hlen' & _ & _ & Hdone' & _).
    destruct Hsize as (_ & _ & Htile).
    split_and!; [congruence|congruence|].
    apply (list_eq_same_length _ _ (Z.to_nat (MDRangePolicy.rank traits)));
      [lia|lia|].
    intros i x y Hi Hx Hy.
    apply list_lookup_total_correct in Hx, Hy. subst x y.
    destruct (Hdone i Hi) as (-> & _). destruct (Hdone' i Hi) as (-> & _).
    by apply fixed_host_tile_fits, Hfits.
  - destruct Hout as (_ & _ & _ & _ & _ & Hdone & _).
    destruct Hout' as (Hj' & Hz' & _).
    rewrite fixed_host_tile_fits in Hz' by by apply Hfits.
    by destruct (Hdone j' Hj') as (_ & ? & _).
  - destruct Hout as (Hj & Hz & _).
    destruct Hout' as (_ & _ & _ & _ & _ & Hdone' & _).
    destruct (Hdone' j Hj) as (_ & Hnz & _).
    rewrite fixed_host_tile_fits in Hnz by by apply Hfits. done.
  - destruct Hout as (Hj & Hz & _ & Hbefore & _).
    destruct Hout' as (Hj' & Hz' & Hbefore').
    destruct (Nat.lt_trichotomy j' j) as [Hlt|[->|Hgt]]; [|done|].
    + destruct (Hbefore j' Hlt) as (_ & Hnz).
      rewrite fixed_host_tile_fits in Hz' by by apply Hfits. done.
    + pose proof (Hbefore' j Hgt) as Hnz.
      rewrite fixed_host_tile_fits in Hnz by by apply Hfits. done.
Qed.

(** ** The Cuda loops on [index_type] *)

Lemma length_default_unset (a : list Z) (v : Z) :
  length (Array_default_unset a v) = length a.
Proof. unfold Array_default_unset. by rewrite length_fmap. Qed.

Lemma lookup_default_unset (a : list Z) (v : Z) (i : nat) :
  (i < length a)%nat ->
  Array_default_unset a v !!! i = if a !!! i <=? 0 then v else a !!! i.
Proof.
  intros Hi. unfold Array_default_unset.
  by apply (list_lookup_total_fmap (fun x => if x <=? 0 then v else x)).
Qed.

Lemma default_unset_positive (a : list Z) (v : Z) :
  Forall (fun x => 0 < x) a -> Array_default_unset a v = a.
Proof.
  unfold Array_default_unset.
  induction 1 as [|x l Hx _ IH]; [done|].
  rewrite fmap_cons, IH. destruct (Z.leb_spec x 0); [lia|done].
Qed.

Lemma assign_scalar_unhinted (a : list Z) (v : Z) :
  Forall (fun x => x <= 0) a -> Array_assign_scalar a v = Array_default_unset a v.
Proof.
  unfold Array_assign_scalar, Array_default_unset.
  induction 1 as [|x l Hx _ IH]; [done|].
  rewrite fmap_cons, <- IH. simpl.
  destruct (Z.leb_spec x 0); [done|lia].
Qed.

Lemma default_unset_at_least_1 (a : list Z) (i : nat) :
  (i < length a)%nat -> 1 <= Array_default_unset a 8 !!! i.
Proof.
  intros Hi. rewrite lookup_default_unset by done.
  destruct (Z.leb_spec (a !!! i) 0); lia.
Qed.

(** The second Cuda loop multiplies the tile sizes in [index_type]. *)
Lemma fixed_check_loop (I : IndexType) (traits : PolicyTraits)
    (p : MDRangePolicy.t) :
  length (MDRangePolicy.m_tile p) = Z.to_nat (MDRangePolicy.rank traits) ->
  for_loop 0 (Z.to_nat (MDRangePolicy.rank traits)) (FixedWidth.check_body I p) 1
  = Returned (wrap I (product (MDRangePolicy.m_tile p))).
Proof.
  intros Hlen.
  pose proof (for_loop_ind
                (fun k acc =>
                   acc = wrap I (product (take k (MDRangePolicy.m_tile p))))
                (fun _ => False) (FixedWidth.check_body I p)
                (Z.to_nat (MDRangePolicy.rank traits)) 0%nat 1) as Hind.
  simpl in Hind.
  assert (Hinit : 1 = wrap I (product [])).
  { symmetry. apply wrap_fits. by apply fits_small. }
  assert (Hstep : forall i a0,
    (0 <= i < Z.to_nat (MDRangePolicy.rank traits))%nat ->
    a0 = wrap I (product (take i (MDRangePolicy.m_tile p))) ->
    match FixedWidth.check_body I p i a0 with
    | Returned a' => a' = wrap I (product (take (S i) (MDRangePolicy.m_tile p)))
    | _ => False
    end).
  { intros i a0 Hi ->. unfold FixedWidth.check_body.
    apply wrap_product_take_S. lia. }
  specialize (Hind Hinit Hstep).
  destruct (for_loop _ _ _ _) as [acc| |]; [|done..].
  rewrite Hind. by rewrite take_ge by lia.
Qed.

Lemma fixed_check_volume (I : IndexType) (traits : PolicyTraits)
    (p : MDRangePolicy.t) :
  length (MDRangePolicy.m_tile p) = Z.to_nat (MDRangePolicy.rank traits) ->
  FixedWidth.check_volume I traits p =
    if wrap I (product (MDRangePolicy.m_tile p)) >? 1024
    then RuntimeException MDRangePolicy.tile_dims_message
    else Returned p.
Proof.
  intros Hlen. unfold FixedWidth.check_volume.
  by rewrite fixed_check_loop.
Qed.

Lemma fixed_count_tiles_returns (I : IndexType) (k : nat) (span : Z)
    (p : MDRangePolicy.t) :
  MDRangePolicy.m_tile p !!! k <> 0 ->
  (k < length (MDRangePolicy.m_tile_end p))%nat ->
  MDRangePolicy.m_num_tiles p
  = wrap I (product (take k (MDRangePolicy.m_tile_end p))) ->
  exists p',
    FixedWidth.count_tiles I k span p = Returned p'
    /\ MDRangePolicy.m_lower p' = MDRangePolicy.m_lower p
    /\ MDRangePolicy.m_upper p' = MDRangePolicy.m_upper p
    /\ MDRangePolicy.m_tile p' = MDRangePolicy.m_tile p
    /\ length (MDRangePolicy.m_tile_end p') = length (MDRangePolicy.m_tile_end p)
    /\ MDRangePolicy.m_tile_end p' !!! k
       = fixed_count I span (MDRangePolicy.m_tile p !!! k)
    /\ (forall j, j <> k ->
          MDRangePolicy.m_tile_end p' !!! j = MDRangePolicy.m_tile_end p !!! j)
    /\ MDRangePolicy.m_num_tiles p'
       = wrap I (product (take (S k) (MDRangePolicy.m_tile_end p'))).
Proof.
  intros Hnz Hk Hnum. unfold FixedWidth.count_tiles.
  destruct (Z.eqb_spec (MDRangePolicy.m_tile p !!! k) 0) as [|_]; [done|].
  eexists. split; [done|]. simpl. split_and!; try done.
  - by rewrite length_insert.
  - by rewrite list_lookup_total_insert_eq.
  - intros j Hj. by rewrite list_lookup_total_insert_ne.
  - rewrite Hnum.
    rewrite <- (take_insert_ge (MDRangePolicy.m_tile_end p) k k
                  (idx_div I
                     (idx_sub I (idx_add I span (MDRangePolicy.m_tile p !!! k)) 1)
                     (MDRangePolicy.m_tile p !!! k))) by lia.
    apply wrap_product_take_S. by rewrite length_insert.
Qed.

Section FixedCuda.

Variable I : IndexType.
Variable Array_assign : list Z -> Z -> list Z.
Variable traits : PolicyTraits.
Variables lower upper tile : list Z.
Hypothesis Hsize : well_sized traits lower upper tile.

(** With every hint positive the first loop never runs the assignment. *)
Lemma fixed_hinted_step (k : nat) (p : MDRangePolicy.t) :
  (forall i, (i < Z.to_nat (MDRangePolicy.rank traits))%nat -> 1 <= tile !!! i) ->
  (k < Z.to_nat (MDRangePolicy.rank traits))%nat ->
  fixed_hinted_inv I traits lower upper tile k p ->
  match FixedWidth.cuda_body I Array_assign lower upper k p with
  | Returned p' => fixed_hinted_inv I traits lower upper tile (S k) p'
  | _ => False
  end.
Proof.
  intros Hall Hk (Hlo & Hup & Htl & Hle & Hcounts & Hnum).
  specialize (Hall k Hk).
  unfold FixedWidth.cuda_body. rewrite Htl.
  destruct (Z.leb_spec (tile !!! k) 0) as [|_]; [lia|].
  destruct (fixed_count_tiles_returns I k
              (idx_sub I (upper !!! k) (lower !!! k)) p)
    as (p' & -> & Hlo' & Hup' & Htl' & Hle' & Hend & Hother & Hnum');
    [rewrite Htl; lia | lia | done |].
  unfold fixed_hinted_inv. split_and!; try congruence.
  intros j Hj. destruct (decide (j = k)) as [->|Hne].
  - by rewrite Hend, Htl.
  - rewrite Hother by done. apply Hcounts. lia.
Qed.

Lemma fixed_hinted_resolve :
  (forall i, (i < Z.to_nat (MDRangePolicy.rank traits))%nat -> 1 <= tile !!! i) ->
  exists p,
    FixedWidth.resolve_tiles I Array_assign traits lower upper tile = Returned p
    /\ fixed_hinted_inv I traits lower upper tile
         (Z.to_nat (MDRangePolicy.rank traits)) p.
Proof.
  intros Hall. unfold FixedWidth.resolve_tiles.
  pose proof (for_loop_ind (fixed_hinted_inv I traits lower upper tile)
                (fun _ => False)
                (FixedWidth.cuda_body I Array_assign lower upper)
                (Z.to_nat (MDRangePolicy.rank traits)) 0%nat
                (MDRangePolicy.initial traits lower upper tile)) as Hind.
  simpl in Hind.
  assert (Hinit : fixed_hinted_inv I traits lower upper tile 0
                    (MDRangePolicy.initial traits lower upper tile)).
  { unfold fixed_hinted_inv, MDRangePolicy.initial; simpl.
    split_and!; try done.
    - by rewrite length_replicate.
    - intros j Hj. lia.
    - symmetry. apply wrap_fits. by apply fits_small. }
  assert (Hstep : forall i p0,
    (0 <= i < Z.to_nat (MDRangePolicy.rank traits))%nat ->
    fixed_hinted_inv I traits lower upper tile i p0 ->
    match FixedWidth.cuda_body I Array_assign lower upper i p0 with
    | Returned p' => fixed_hinted_inv I traits lower upper tile (S i) p'
    | _ => False
    end).
  { intros i p0 Hi Hp0. apply fixed_hinted_step; [done|lia|done]. }
  specialize (Hind Hinit Hstep).
  destruct (for_loop _ _ _ _) as [p| |]; [|done..].
  by exists p.
Qed.

(** With an assignment that defaults the unset entries, a pass of the
    first loop always returns. *)
Lemma fixed_cuda_step (k : nat) (p : MDRangePolicy.t) :
  defaults_unset_entries Array_assign ->
  (k < Z.to_nat (MDRangePolicy.rank traits))%nat ->
  fixed_cuda_inv I traits lower upper tile k p ->
  match FixedWidth.cuda_body I Array_assign lower upper k p with
  | Returned p' => fixed_cuda_inv I traits lower upper tile (S k) p'
  | _ => False
  end.
Proof.
  intros Hassign Hk (Hlo & Hup & Htl & Hle & Hcounts & Hnum).
  destruct Hsize as (_ & _ & Htile).
  assert (Hk' : (k < length tile)%nat) by lia.
  pose proof (default_unset_at_least_1 tile k Hk') as Hpos.
  pose proof (lookup_default_unset tile 8 k Hk') as Hlook.
  unfold FixedWidth.cuda_body.
  (* the state the assignment leaves *)
  assert (Hp1 : exists tl,
    (if MDRangePolicy.m_tile p !!! k <=? 0
     then MDRangePolicy.set_tile (Array_assign (MDRangePolicy.m_tile p) 8) p
     else p) = MDRangePolicy.set_tile tl p
    /\ tl !!! k = Array_default_unset tile 8 !!! k
    /\ ((tl = tile /\ Forall (fun x => 0 < x) (take (S k) tile))
        \/ tl = Array_default_unset tile 8)).
  { destruct Htl as [[Htl Hall]|Htl]; rewrite Htl.
    - destruct (Z.leb_spec (tile !!! k) 0) as [Hle0|Hgt].
      + exists (Array_default_unset tile 8). rewrite Hassign.
        split_and!; [done|done|by right].
      + exists tile. split_and!.
        * by rewrite <- Htl, set_tile_same.
        * rewrite Hlook. destruct (Z.leb_spec (tile !!! k) 0); [lia|done].
        * left. split; [done|].
          rewrite (take_S_r tile k (tile !!! k))
            by by apply list_lookup_lookup_total_lt.
          rewrite Forall_app, Forall_singleton. done.
    - destruct (Z.leb_spec (Array_default_unset tile 8 !!! k) 0); [lia|].
      exists (Array_default_unset tile 8). split_and!.
      + by rewrite <- Htl, set_tile_same.
      + done.
      + by right. }
  destruct Hp1 as (tl & -> & Htlk & Hcase).
  destruct (fixed_count_tiles_returns I k
              (idx_sub I (upper !!! k) (lower !!! k))
              (MDRangePolicy.set_tile tl p))
    as (p' & -> & Hlo' & Hup' & Htl' & Hle' & Hend & Hother & Hnum');
    [simpl; rewrite Htlk; lia | simpl; lia | done |].
  simpl in *. unfold fixed_cuda_inv. split_and!; try congruence.
  intros j Hj. destruct (decide (j = k)) as [->|Hne].
  - by rewrite Hend, Htlk.
  - rewrite Hother by done. apply Hcounts. lia.
Qed.

Lemma fixed_cuda_resolve :
  defaults_unset_entries Array_assign ->
  exists p,
    FixedWidth.resolve_tiles I Array_assign traits lower upper tile = Returned p
    /\ fixed_cuda_inv I traits lower upper tile
         (Z.to_nat (MDRangePolicy.rank traits)) p
    /\ MDRangePolicy.m_tile p = Array_default_unset tile 8.
Proof.
  intros Hassign. unfold FixedWidth.resolve_tiles.
  pose proof (for_loop_ind (fixed_cuda_inv I traits lower upper tile)
                (fun _ => False)
                (FixedWidth.cuda_body I Array_assign lower upper)
                (Z.to_nat (MDRangePolicy.rank traits)) 0%nat
                (MDRangePolicy.initial traits lower upper tile)) as Hind.
  simpl in Hind.
  assert (Hinit : fixed_cuda_inv I traits lower upper tile 0
                    (MDRangePolicy.initial traits lower upper tile)).
  { unfold fixed_cuda_inv, MDRangePolicy.initial; simpl.
    split_and!; try done.
    - left. split; [done|]. apply Forall_nil_2.
    - by rewrite length_replicate.
    - intros j Hj. lia.
    - symmetry. apply wrap_fits. by apply fits_small. }
  assert (Hstep : forall i p0,
    (0 <= i < Z.to_nat (MDRangePolicy.rank traits))%nat ->
    fixed_cuda_inv I traits lower upper tile i p0 ->
    match FixedWidth.cuda_body I Array_assign lower upper i p0 with
    | Returned p' => fixed_cuda_inv I traits lower upper tile (S i) p'
    | _ => False
    end).
  { intros i p0 Hi Hp0. apply fixed_cuda_step; [done|lia|done]. }
  specialize (Hind Hinit Hstep).
  destruct (for_loop _ _ _ _) as [p| |]; [|done..].
  exists p. split_and!; [done|done|].
  destruct Hind as (_ & _ & [[-> Hall]|Htl] & _); [|done].
  destruct Hsize as (_ & _ & Htile).
  rewrite take_ge in Hall by lia. by rewrite default_unset_positive.
Qed.

End FixedCuda.

(** ** The constructor on [index_type]: its outcomes *)



(** Every outcome of the constructor on the Cuda path, for an assignment
    that defaults the unset entries. *)
Lemma fixed_cuda_outcome (I : IndexType)
    (Array_assign : list Z -> Z -> list Z) (build : Build)
    (traits : PolicyTraits) (lower upper tile : list Z) :
  defaults_unset_entries Array_assign ->
  well_sized traits lower upper tile ->
  MDRangePolicy.host_path build traits = false ->
  exists p,
    fixed_cuda_inv I traits lower upper tile
      (Z.to_nat (MDRangePolicy.rank traits)) p
    /\ MDRangePolicy.m_tile p = Array_default_unset tile 8
    /\ FixedWidth.MDRangePolicy I Array_assign build traits lower upper tile =
       if wrap I (product (MDRangePolicy.m_tile p)) >? 1024
       then RuntimeException MDRangePolicy.tile_dims_message
       else Returned p.
Proof.
  intros Hassign Hsize Hpath.
  destruct (fixed_cuda_resolve I Array_assign traits lower upper tile
              Hsize Hassign) as (p & Hres & Hinv & Htl).
  exists p. split_and!; [done|done|].
  unfold FixedWidth.MDRangePolicy. rewrite Hpath, Hres. cbn [bind].
  apply fixed_check_volume.
  rewrite Htl, length_default_unset. by destruct Hsize as (_ & _ & ->).
Qed.

(** Every outcome of the constructor on the Cuda path when every hint is
    positive, whatever the assignment. *)
Lemma fixed_hinted_outcome (I : IndexType)
    (Array_assign : list Z -> Z -> list Z) (build : Build)
    (traits : PolicyTraits) (lower upper tile : list Z) :
  well_sized traits lower upper tile ->
  MDRangePolicy.host_path build traits = false ->
  (forall i, (i < Z.to_nat (MDRangePolicy.rank traits))%nat -> 1 <= tile !!! i) ->
  exists p,
    fixed_hinted_inv I traits lower upper tile
      (Z.to_nat (MDRangePolicy.rank traits)) p
    /\ FixedWidth.resolve_tiles I Array_assign traits lower upper tile
       = Returned p
    /\ FixedWidth.MDRangePolicy I Array_assign build traits lower upper tile =
       if wrap I (product tile) >? 1024
       then RuntimeException MDRangePolicy.tile_dims_message
       else Returned p.
Proof.
  intros Hsize Hpath Hall.
  destruct (fixed_hinted_resolve I Array_assign traits lower upper tile
              Hall) as (p & Hres & Hinv).
  exists p. split_and!; [done|done|].
  unfold FixedWidth.MDRangePolicy. rewrite Hpath, Hres. cbn [bind].
  destruct Hinv as (_ & _ & Htl & _).
  rewrite <- Htl. apply fixed_check_volume.
  rewrite Htl. by destruct Hsize as (_ & _ & ->).
Qed.

(** The count of a dimension of a host geometry is the ceiling when the
    numerator fits the type. *)
Lemma fixed_host_count_ceil (I : IndexType) (traits : PolicyTraits)
    (lower upper tile : list Z) (p : MDRangePolicy.t) (i : nat) :
  fixed_host_inv I traits lower upper tile
    (Z.to_nat (MDRangePolicy.rank traits)) p ->
  (i < Z.to_nat (MDRangePolicy.rank traits))%nat ->
  lower !!! i <= upper !!! i ->
  1 <= MDRangePolicy.m_tile p !!! i ->
  fits I (upper !!! i - lower !!! i + MDRangePolicy.m_tile p !!! i - 1) ->
  MDRangePolicy.m_tile_end p !!! i =
    ceil_div (upper !!! i - lower !!! i) (MDRangePolicy.m_tile p !!! i).
Proof.
  intros (_ & _ & _ & _ & _ & Hdone & _) Hi Hb Hpos Hfit.
  destruct (Hdone i Hi) as (Htl & _ & ->). rewrite <- Htl.
  assert (Hspan : fits I (upper !!! i - lower !!! i)).
  { apply (fits_between I
             (upper !!! i - lower !!! i + MDRangePolicy.m_tile p !!! i - 1));
      [lia|done]. }
  unfold idx_sub at 1. rewrite (wrap_fits I _ Hspan).
  apply fixed_count_ceil_div; [lia|done|done].
Qed.

(** ** The claims on the arithmetic of [index_type] *)

(** C2, as stated, fails on the host path: with [index_type = int], rank
    2, bounds [{0,0}] to [{2147483647,10}] and the hint [{2,0}] the inputs
    are valid (the resolved tile is [{2,10}]) and the numerator
    [2147483647 + 2 - 1] of dimension 0 does not fit the type: the
    constructor stores the count [-1073741824], while
    [ceil(2147483647 / 2)] is [1073741824]. *)
Lemma tile_count_identity_overflow :
  FixedWidth.MDRangePolicy Int no_assignment cuda_build OpenMP_Rank2
    [0; 0] [2147483647; 10] [2; 0] =
    Returned {| MDRangePolicy.m_lower := [0; 0];
                MDRangePolicy.m_upper := [2147483647; 10];
                MDRangePolicy.m_tile := [2; 10];
                MDRangePolicy.m_tile_end := [-1073741824; 1];
                MDRangePolicy.m_num_tiles := -1073741824 |}
  /\ ceil_div (2147483647 - 0) 2 = 1073741824
  /\ fits Int 2147483647
  /\ ~ fits Int (2147483647 - 0 + 2 - 1).
Proof.
  split_and!; [by vm_compute..|].
  unfold fits. vm_compute. intros [_ H]. by apply H.
Qed.

(** C2, amended: for a geometry constructed from valid inputs
    ([upper[i] >= lower[i]], resolved [tile[i] >= 1]) whose numerators
    [upper[i] - lower[i] + tile[i] - 1] fit [index_type], every tile count
    is [ceil((upper[i] - lower[i]) / tile[i])]; [m_num_tiles] is the
    product of the tile counts as [index_type] stores it, and the product
    itself when that fits the type.  On the host path this holds of the
    code as it is; on the Cuda path, for an assignment [m_tile = 8] that
    defaults the unset entries. *)
Theorem tile_count_identity (I : IndexType)
    (Array_assign : list Z -> Z -> list Z) (build : Build)
    (traits : PolicyTraits) (lower upper tile : list Z) (p : MDRangePolicy.t) :
  well_sized traits lower upper tile ->
  (MDRangePolicy.host_path build traits = false ->
   defaults_unset_entries Array_assign) ->
  FixedWidth.MDRangePolicy I Array_assign build traits lower upper tile
  = Returned p ->
  (forall i, (i < Z.to_nat (MDRangePolicy.rank traits))%nat ->
     lower !!! i <= upper !!! i
     /\ 1 <= MDRangePolicy.m_tile p !!! i
     /\ fits I (upper !!! i - lower !!! i + MDRangePolicy.m_tile p !!! i - 1)) ->
  (forall i, (i < Z.to_nat (MDRangePolicy.rank traits))%nat ->
     MDRangePolicy.m_tile_end p !!! i =
       ceil_div (upper !!! i - lower !!! i) (MDRangePolicy.m_tile p !!! i))
  /\ MDRangePolicy.m_num_tiles p = wrap I (product (MDRangePolicy.m_tile_end p))
  /\ (fits I (product (MDRangePolicy.m_tile_end p)) ->
      MDRangePolicy.m_num_tiles p = product (MDRangePolicy.m_tile_end p)).
Proof.
  intros Hsize Hassign Hret Hvalid.
  assert (Hgoal :
    (forall i, (i < Z.to_nat (MDRangePolicy.rank traits))%nat ->
       MDRangePolicy.m_tile_end p !!! i =
         ceil_div (upper !!! i - lower !!! i) (MDRangePolicy.m_tile p !!! i))
    /\ MDRangePolicy.m_num_tiles p
       = wrap I (product (MDRangePolicy.m_tile_end p))).
  { destruct (MDRangePolicy.host_path build traits) eqn:Hpath.
    - pose proof (fixed_host_returned_inv I Array_assign build traits
                    lower upper tile p Hpath Hsize Hret) as Hinv.
      split.
      + intros i Hi. destruct (Hvalid i Hi) as (Hb & Hpos & Hfit).
        by apply (fixed_host_count_ceil I traits lower upper tile).
      + destruct Hinv as (_ & _ & _ & Hlen & _ & _ & ->).
        by rewrite take_ge by lia.
    - destruct (fixed_cuda_outcome I Array_assign build traits lower upper tile
                  (Hassign eq_refl) Hsize Hpath)
        as (p0 & (_ & _ & _ & Hlen & Hcounts & Hnum) & Htl & Hout).
      rewrite Hret in Hout.
      destruct (wrap I (product (MDRangePolicy.m_tile p0)) >? 1024); [done|].
      injection Hout as <-. split.
      + intros i Hi. destruct (Hvalid i Hi) as (Hb & Hpos & Hfit).
        rewrite (Hcounts i Hi), <- Htl.
        assert (Hspan : fits I (upper !!! i - lower !!! i)).
        { apply (fits_between I
                   (upper !!! i - lower !!! i + MDRangePolicy.m_tile p !!! i - 1));
            [lia|done]. }
        unfold idx_sub. rewrite (wrap_fits I _ Hspan).
        apply fixed_count_ceil_div; [lia|done|done].
      + rewrite Hnum. by rewrite take_ge by lia. }
  destruct Hgoal as (Hcount & Hnum). split_and!; [done|done|].
  intros Hfit. by rewrite Hnum, wrap_fits.
Qed.

Lemma tile_count_identity_witness :
  (forall i, (i < Z.to_nat (MDRangePolicy.rank Cuda_Rank2))%nat ->
     [3; 2] !!! i = ceil_div ([10; 10] !!! i - [0; 0] !!! i) ([4; 8] !!! i))
  /\ 6 = wrap Int (product [3; 2])
  /\ (fits Int (product [3; 2]) -> 6 = product [3; 2]).
Proof.
  apply (tile_count_identity Int Array_default_unset cuda_build Cuda_Rank2
           [0; 0] [10; 10] [4; 0]
           {| MDRangePolicy.m_lower := [0; 0];
              MDRangePolicy.m_upper := [10; 10];
              MDRangePolicy.m_tile := [4; 8];
              MDRangePolicy.m_tile_end := [3; 2];
              MDRangePolicy.m_num_tiles := 6 |}
           (conj eq_refl (conj eq_refl eq_refl))
           (fun _ a v => eq_refl) eq_refl).
  intros [|[|i]] Hi; [by vm_compute | by vm_compute | vm_compute in Hi; lia].
Defined.

(** C3, as stated, fails: with a 32-bit [index_type] (here
    [unsigned int]) and the tile hint [{65536,65536}] the product of the
    tile sizes is [2 ^ 32 > 1024], [total_tile_size_check] wraps to 0, and
    the constructor returns the geometry, whatever the assignment of line
    177 does. *)
Lemma tile_volume_overflow_accepted :
  1024 < product [65536; 65536]
  /\ wrap UInt (product [65536; 65536]) = 0
  /\ forall Array_assign,
       FixedWidth.MDRangePolicy UInt Array_assign cuda_build Cuda_Rank2
         [0; 0] [10; 10] [65536; 65536] =
       Returned {| MDRangePolicy.m_lower := [0; 0];
                   MDRangePolicy.m_upper := [10; 10];
                   MDRangePolicy.m_tile := [65536; 65536];
                   MDRangePolicy.m_tile_end := [1; 1];
                   MDRangePolicy.m_num_tiles := 1 |}.
Proof. split_and!; [by vm_compute..|]. intros Array_assign. by vm_compute. Qed.

(** C3, amended: on the Cuda path, once the first loop has resolved the
    tile sizes, the constructor throws exactly when their product as
    [index_type] accumulates it (modulo [2 ^ bits]) exceeds 1024, and
    returns the geometry otherwise; when the product fits [index_type]
    that is the product itself.  With every hint positive the resolved
    tile sizes are the hints, whatever the assignment of line 177 does.
    On the host path the constructor never throws. *)
Theorem cuda_tile_volume_check (I : IndexType)
    (Array_assign : list Z -> Z -> list Z) (build : Build)
    (traits : PolicyTraits) (lower upper tile : list Z) :
  well_sized traits lower upper tile ->
  (MDRangePolicy.host_path build traits = false ->
     (forall p',
        FixedWidth.resolve_tiles I Array_assign traits lower upper tile
        = Returned p' ->
        length (MDRangePolicy.m_tile p') = Z.to_nat (MDRangePolicy.rank traits) ->
        FixedWidth.MDRangePolicy I Array_assign build traits lower upper tile =
          (if wrap I (product (MDRangePolicy.m_tile p')) >? 1024
           then RuntimeException MDRangePolicy.tile_dims_message
           else Returned p')
        /\ (fits I (product (MDRangePolicy.m_tile p')) ->
            (1024 < product (MDRangePolicy.m_tile p') ->
             FixedWidth.MDRangePolicy I Array_assign build traits lower upper tile
             = RuntimeException MDRangePolicy.tile_dims_message)
            /\ (product (MDRangePolicy.m_tile p') <= 1024 ->
                FixedWidth.MDRangePolicy I Array_assign build traits
                  lower upper tile = Returned p')))
     /\ ((forall i, (i < Z.to_nat (MDRangePolicy.rank traits))%nat ->
            1 <= tile !!! i) ->
         exists p',
           FixedWidth.resolve_tiles I Array_assign traits lower upper tile
           = Returned p'
           /\ MDRangePolicy.m_tile p' = tile))
  /\ (MDRangePolicy.host_path build traits = true ->
      forall msg,
        FixedWidth.MDRangePolicy I Array_assign build traits lower upper tile
        <> RuntimeException msg).
Proof.
  intros Hsize. split.
  - intros Hpath. split.
    + intros p' Hres Hlen.
      assert (Heq :
        FixedWidth.MDRangePolicy I Array_assign build traits lower upper tile =
          if wrap I (product (MDRangePolicy.m_tile p')) >? 1024
          then RuntimeException MDRangePolicy.tile_dims_message
          else Returned p').
      { unfold FixedWidth.MDRangePolicy. rewrite Hpath, Hres. cbn [bind].
        by apply fixed_check_volume. }
      split; [done|]. intros Hfit. rewrite Heq, (wrap_fits I _ Hfit).
      split; intros Hvol.
      * by rewrite (proj2 (Z.gtb_gt _ _)) by lia.
      * destruct (Z.gtb_spec (product (MDRangePolicy.m_tile p')) 1024);
          [lia|done].
    + intros Hall.
      destruct (fixed_hinted_outcome I Array_assign build traits lower upper tile
                  Hsize Hpath Hall) as (p' & (_ & _ & Htl & _) & Hres & _).
      by exists p'.
  - intros Hpath msg. unfold FixedWidth.MDRangePolicy. rewrite Hpath.
    pose proof (fixed_host_loop_outcome I traits lower upper tile Hsize) as Hout.
    intros Heq. by rewrite Heq in Hout.
Qed.

Lemma cuda_tile_volume_check_witness :
  exists p',
    FixedWidth.resolve_tiles UInt no_assignment Cuda_Rank2
      [0; 0] [10; 10] [32; 32] = Returned p'
    /\ MDRangePolicy.m_tile p' = [32; 32].
Proof.
  apply (proj1 (cuda_tile_volume_check UInt no_assignment cuda_build Cuda_Rank2
                  [0; 0] [10; 10] [32; 32]
                  (conj eq_refl (conj eq_refl eq_refl)))); [reflexivity|].
  intros [|[|i]] Hi; [by vm_compute | by vm_compute | vm_compute in Hi; lia].
Defined.

(** The boundary of C3 on tile volumes that fit the type: 1024 is
    accepted and 1025 is refused, whatever the assignment of line 177
    does. *)
Example cuda_volume_1024_accepted :
  product [32; 32] = 1024
  /\ forall Array_assign,
       FixedWidth.MDRangePolicy UInt Array_assign cuda_build Cuda_Rank2
         [0; 0] [10; 10] [32; 32] =
       Returned {| MDRangePolicy.m_lower := [0; 0];
                   MDRangePolicy.m_upper := [10; 10];
                   MDRangePolicy.m_tile := [32; 32];
                   MDRangePolicy.m_tile_end := [1; 1];
                   MDRangePolicy.m_num_tiles := 1 |}.
Proof. split; [by vm_compute|]. intros Array_assign. by vm_compute. Qed.

Example cuda_volume_1025_refused :
  product [205; 5] = 1025
  /\ forall Array_assign,
       FixedWidth.MDRangePolicy UInt Array_assign cuda_build Cuda_Rank2
         [0; 0] [10; 10] [205; 5] =
       RuntimeException MDRangePolicy.tile_dims_message.
Proof. split; [by vm_compute|]. intros Array_assign. by vm_compute. Qed.



(** ** Further properties of the constructor on [index_type] *)

Lemma well_typed_fits (I : IndexType) (traits : PolicyTraits)
    (lower upper tile : list Z) (i : nat) :
  well_typed I traits lower upper tile ->
  (i < Z.to_nat (MDRangePolicy.rank traits))%nat ->
  fits I (lower !!! i) /\ fits I (upper !!! i) /\ fits I (tile !!! i).
Proof.
  intros ((Hl & Hu & Ht) & Hfl & Hfu & Hft) Hi.
  split_and!; apply (Forall_lookup_total_1 (fits I)); (done || lia).
Qed.

(** On [index_type] too, the resolved tile size of a dimension is zero
    exactly when the hint is unset, the dimension is not subdivided, and
    its bounds are equal. *)
Lemma fixed_host_tile_zero_iff (I : IndexType) (traits : PolicyTraits)
    (lower upper tile : list Z) (i : nat) :
  fits I (lower !!! i) -> fits I (upper !!! i) ->
  fixed_host_tile I traits lower upper tile i = 0
  <-> tile !!! i <= 0 /\ ~ subdivided traits i /\ upper !!! i = lower !!! i.
Proof.
  intros Hl Hu. unfold fixed_host_tile.
  pose proof (subdivided_test traits i) as Ht.
  pose proof (idx_sub_zero I (upper !!! i) (lower !!! i) Hu Hl) as Hz.
  destruct (Z.leb_spec (tile !!! i) 0) as [Hle|Hpos].
  - match goal with |- context [if ?c then _ else _] => destruct c end.
    + split; [done|]. intros (_ & Hno & _). destruct Hno. by apply Ht.
    + rewrite Hz. split; [intros ->; split_and!; [done| |done]|tauto].
      intros Hs. apply Ht in Hs. done.
  - split; [lia|]. intros (? & _). lia.
Qed.

(** X3: on the host path, bounds of the index type with
    [lower[i] < upper[i]] in every dimension always give a geometry,
    whatever the tile hint and however large the spans.  In a dimension
    whose span fits the type the tile size is at least 1, and its tile
    count is at least 1 when the numerator [span + tile - 1] fits too;
    when this holds of every dimension and the product of the tile counts
    fits, [m_num_tiles] is at least 1. *)
Theorem host_nonempty_bounds_return (I : IndexType)
    (Array_assign : list Z -> Z -> list Z) (build : Build)
    (traits : PolicyTraits) (lower upper tile : list Z) :
  MDRangePolicy.host_path build traits = true ->
  well_typed I traits lower upper tile ->
  (forall i, (i < Z.to_nat (MDRangePolicy.rank traits))%nat ->
     lower !!! i < upper !!! i) ->
  exists p,
    FixedWidth.MDRangePolicy I Array_assign build traits lower upper tile
    = Returned p
    /\ (forall i, (i < Z.to_nat (MDRangePolicy.rank traits))%nat ->
          fits I (upper !!! i - lower !!! i) ->
          1 <= MDRangePolicy.m_tile p !!! i
          /\ (fits I (upper !!! i - lower !!! i
                      + MDRangePolicy.m_tile p !!! i - 1) ->
              1 <= MDRangePolicy.m_tile_end p !!! i))
    /\ ((forall i, (i < Z.to_nat (MDRangePolicy.rank traits))%nat ->
           fits I (upper !!! i - lower !!! i)
           /\ fits I (upper !!! i - lower !!! i
                      + MDRangePolicy.m_tile p !!! i - 1)) ->
        fits I (product (MDRangePolicy.m_tile_end p)) ->
        1 <= MDRangePolicy.m_num_tiles p).
Proof.
  intros Hpath Htyped Hne.
  pose proof Htyped as (Hsize & _).
  pose proof (fixed_host_loop_outcome I traits lower upper tile Hsize) as Hout.
  unfold FixedWidth.MDRangePolicy. rewrite Hpath.
  destruct (for_loop _ _ _ _) as [p|j t|m]; [| |done].
  - exists p. split; [done|].
    assert (Heach : forall i, (i < Z.to_nat (MDRangePolicy.rank traits))%nat ->
              fits I (upper !!! i - lower !!! i) ->
              1 <= MDRangePolicy.m_tile p !!! i
              /\ (fits I (upper !!! i - lower !!! i
                          + MDRangePolicy.m_tile p !!! i - 1) ->
                  1 <= MDRangePolicy.m_tile_end p !!! i)).
    { intros i Hi Hspan.
      pose proof Hout as (_ & _ & _ & _ & _ & Hdone & _).
      destruct (Hdone i Hi) as (Htl & Hz & _).
      specialize (Hne i Hi).
      rewrite fixed_host_tile_fits in Htl, Hz by done.
      pose proof (host_tile_positive traits lower upper tile i ltac:(lia) Hz)
        as Hpos.
      rewrite <- Htl in Hpos. split; [done|]. intros Hfit.
      rewrite (fixed_host_count_ceil I traits lower upper tile p i)
        by (done || lia).
      apply ceil_div_positive; lia. }
    split; [done|]. intros Hfits Hprod.
    destruct Hout as (_ & _ & _ & Hlen & _ & _ & ->).
    rewrite take_ge, (wrap_fits I _ Hprod) by lia.
    apply product_positive.
    apply (Forall_lookup_total_2 (fun x => 1 <= x)). intros i Hi.
    destruct (Hfits i ltac:(lia)) as (Hspan & Hnum).
    by apply (Heach i ltac:(lia) Hspan).
  - exfalso. destruct Hout as (Hj & Hz & _).
    destruct (well_typed_fits I traits lower upper tile j Htyped Hj)
      as (Hl & Hu & _).
    apply (fixed_host_tile_zero_iff I traits lower upper tile j Hl Hu) in Hz
      as (_ & _ & Heq).
    specialize (Hne j Hj). lia.
Qed.

Lemma host_nonempty_bounds_return_witness :
  exists p,
    FixedWidth.MDRangePolicy Int no_assignment cuda_build OpenMP_Rank2
      [0; 0] [2147483647; 7] [2; 0] = Returned p
    /\ (forall i, (i < Z.to_nat (MDRangePolicy.rank OpenMP_Rank2))%nat ->
          fits Int ([2147483647; 7] !!! i - [0; 0] !!! i) ->
          1 <= MDRangePolicy.m_tile p !!! i
          /\ (fits Int ([2147483647; 7] !!! i - [0; 0] !!! i
                        + MDRangePolicy.m_tile p !!! i - 1) ->
              1 <= MDRangePolicy.m_tile_end p !!! i))
    /\ ((forall i, (i < Z.to_nat (MDRangePolicy.rank OpenMP_Rank2))%nat ->
           fits Int ([2147483647; 7] !!! i - [0; 0] !!! i)
           /\ fits Int ([2147483647; 7] !!! i - [0; 0] !!! i
                        + MDRangePolicy.m_tile p !!! i - 1)) ->
        fits Int (product (MDRangePolicy.m_tile_end p)) ->
        1 <= MDRangePolicy.m_num_tiles p).
Proof.
  apply (host_nonempty_bounds_return Int no_assignment cuda_build OpenMP_Rank2
           [0; 0] [2147483647; 7] [2; 0] eq_refl).
  - split; [by repeat split|].
    split_and!; repeat apply Forall_cons_2; try apply Forall_nil_2;
      by vm_compute.
  - intros [|[|i]] Hi; [by vm_compute | by vm_compute | vm_compute in Hi; lia].
Defined.

(** X5: on the host path, the tiles of a constructed geometry cover a
    dimension with [lower[i] <= upper[i]] and a tile size of at least 1,
    and leave no empty tile at its end, when the numerator
    [span + tile - 1] fits the index type:
    [(m_tile_end[i] - 1) * m_tile[i] < span <= m_tile_end[i] * m_tile[i]]. *)
Theorem host_tiles_cover_span (I : IndexType)
    (Array_assign : list Z -> Z -> list Z) (build : Build)
    (traits : PolicyTraits) (lower upper tile : list Z)
    (p : MDRangePolicy.t) (i : nat) :
  MDRangePolicy.host_path build traits = true ->
  well_sized traits lower upper tile ->
  FixedWidth.MDRangePolicy I Array_assign build traits lower upper tile
  = Returned p ->
  (i < Z.to_nat (MDRangePolicy.rank traits))%nat ->
  lower !!! i <= upper !!! i ->
  1 <= MDRangePolicy.m_tile p !!! i ->
  fits I (upper !!! i - lower !!! i + MDRangePolicy.m_tile p !!! i - 1) ->
  (MDRangePolicy.m_tile_end p !!! i - 1) * MDRangePolicy.m_tile p !!! i
    < upper !!! i - lower !!! i
  /\ upper !!! i - lower !!! i
     <= MDRangePolicy.m_tile_end p !!! i * MDRangePolicy.m_tile p !!! i.
Proof.
  intros Hpath Hsize Hret Hi Hb Hpos Hfit.
  pose proof (fixed_host_returned_inv I Array_assign build traits
                lower upper tile p Hpath Hsize Hret) as Hinv.
  rewrite (fixed_host_count_ceil I traits lower upper tile p i) by done.
  assert (Hlt : 0 < MDRangePolicy.m_tile p !!! i) by (clear -Hpos; lia).
  pose proof (ceil_div_spec (upper !!! i - lower !!! i)
                (MDRangePolicy.m_tile p !!! i) Hlt).
  lia.
Qed.

Lemma host_tiles_cover_span_witness :
  ([3; 3] !!! 1%nat - 1) * [3; 3] !!! 1%nat < [7; 7] !!! 1%nat - [0; 0] !!! 1%nat
  /\ [7; 7] !!! 1%nat - [0; 0] !!! 1%nat <= [3; 3] !!! 1%nat * [3; 3] !!! 1%nat.
Proof.
  apply (host_tiles_cover_span UInt no_assignment cuda_build OpenMP_Rank2
           [0; 0] [7; 7] [3; 3]
           {| MDRangePolicy.m_lower := [0; 0];
              MDRangePolicy.m_upper := [7; 7];
              MDRangePolicy.m_tile := [3; 3];
              MDRangePolicy.m_tile_end := [3; 3];
              MDRangePolicy.m_num_tiles := 9 |} 1%nat
           eq_refl (conj eq_refl (conj eq_refl eq_refl)) eq_refl);
    [vm_compute; lia | by vm_compute | by vm_compute | by vm_compute].
Defined.

(** X6: on the host path, a dimension with an unset tile hint that the
    loop does not subdivide and whose span is positive is a single tile
    when [2 * span - 1] fits the index type: its tile size is the span and
    its tile count is 1. *)
Theorem host_whole_dimension_one_tile (I : IndexType)
    (Array_assign : list Z -> Z -> list Z) (build : Build)
    (traits : PolicyTraits) (lower upper tile : list Z)
    (p : MDRangePolicy.t) (i : nat) :
  MDRangePolicy.host_path build traits = true ->
  well_sized traits lower upper tile ->
  FixedWidth.MDRangePolicy I Array_assign build traits lower upper tile
  = Returned p ->
  (i < Z.to_nat (MDRangePolicy.rank traits))%nat ->
  tile !!! i <= 0 ->
  ~ subdivided traits i ->
  lower !!! i < upper !!! i ->
  fits I (2 * (upper !!! i - lower !!! i) - 1) ->
  MDRangePolicy.m_tile p !!! i = upper !!! i - lower !!! i
  /\ MDRangePolicy.m_tile_end p !!! i = 1.
Proof.
  intros Hpath Hsize Hret Hi Hunset Hwhole Hne Hfit.
  pose proof (fixed_host_returned_inv I Array_assign build traits
                lower upper tile p Hpath Hsize Hret) as Hinv.
  assert (Hspan : fits I (upper !!! i - lower !!! i)).
  { apply (fits_between I (2 * (upper !!! i - lower !!! i) - 1)); [lia|done]. }
  assert (Htl : MDRangePolicy.m_tile p !!! i = upper !!! i - lower !!! i).
  { destruct Hinv as (_ & _ & _ & _ & _ & Hdone & _).
    destruct (Hdone i Hi) as (-> & _).
    rewrite fixed_host_tile_fits by done.
    by apply host_tile_unset. }
  split; [done|].
  rewrite (fixed_host_count_ceil I traits lower upper tile p i);
    [|done|done|lia|lia|].
  - rewrite Htl. unfold ceil_div.
    rewrite Z.div_same, Z.mod_same by lia. done.
  - rewrite Htl.
    by replace (upper !!! i - lower !!! i + (upper !!! i - lower !!! i) - 1)
      with (2 * (upper !!! i - lower !!! i) - 1) by lia.
Qed.

Lemma host_whole_dimension_one_tile_witness :
  [2; 10] !!! 1%nat = [10; 10] !!! 1%nat - [0; 0] !!! 1%nat
  /\ [5; 1] !!! 1%nat = 1.
Proof.
  apply (host_whole_dimension_one_tile UInt no_assignment cuda_build OpenMP_Rank2
           [0; 0] [10; 10] [0; 0]
           {| MDRangePolicy.m_lower := [0; 0];
              MDRangePolicy.m_upper := [10; 10];
              MDRangePolicy.m_tile := [2; 10];
              MDRangePolicy.m_tile_end := [5; 1];
              MDRangePolicy.m_num_tiles := 5 |} 1%nat
           eq_refl (conj eq_refl (conj eq_refl eq_refl)) eq_refl);
    [vm_compute; lia | by vm_compute | | by vm_compute | by vm_compute].
  unfold subdivided. vm_compute. intros [[_ H]|[H _]]; discriminate.
Defined.

(** X8: on the Cuda path, for an assignment [m_tile = 8] that defaults
    the unset entries, the constructor never divides by zero, whatever the
    bounds and the hints: it returns a geometry or throws the tile-volume
    exception.  In a geometry it returns, every dimension with
    [upper[i] = lower[i]] has a tile count of 0, and [m_num_tiles] is then
    0. *)
Theorem cuda_never_divides_by_zero (I : IndexType)
    (Array_assign : list Z -> Z -> list Z) (build : Build)
    (traits : PolicyTraits) (lower upper tile : list Z) :
  defaults_unset_entries Array_assign ->
  well_typed I traits lower upper tile ->
  MDRangePolicy.host_path build traits = false ->
  match FixedWidth.MDRangePolicy I Array_assign build traits lower upper tile with
  | Returned p =>
      forall i, (i < Z.to_nat (MDRangePolicy.rank traits))%nat ->
        upper !!! i = lower !!! i ->
        MDRangePolicy.m_tile_end p !!! i = 0 /\ MDRangePolicy.m_num_tiles p = 0
  | DivisionByZero _ _ => False
  | RuntimeException msg => msg = MDRangePolicy.tile_dims_message
  end.
Proof.
  intros Hassign Htyped Hpath. pose proof Htyped as (Hsize & _).
  destruct (fixed_cuda_outcome I Array_assign build traits lower upper tile
              Hassign Hsize Hpath)
    as (p & (_ & _ & _ & Hlen & Hcounts & Hnum) & Htl & ->).
  destruct (wrap I (product (MDRangePolicy.m_tile p)) >? 1024); [done|].
  intros i Hi Hspan.
  destruct (well_typed_fits I traits lower upper tile i Htyped Hi)
    as (_ & _ & Hfit).
  destruct Hsize as (_ & _ & Htile).
  assert (Hzero : MDRangePolicy.m_tile_end p !!! i = 0).
  { rewrite (Hcounts i Hi), Hspan.
    unfold idx_sub. rewrite Z.sub_diag, (wrap_fits I 0) by by apply fits_small.
    pose proof (default_unset_at_least_1 tile i ltac:(lia)) as Hpos.
    apply fixed_count_small; [done| |lia].
    rewrite lookup_default_unset by lia.
    destruct (tile !!! i <=? 0); [by apply fits_small|done]. }
  split; [done|].
  rewrite Hnum, take_ge by lia. apply (wrap_product_zero I _ i); [lia|done].
Qed.

Lemma cuda_never_divides_by_zero_witness :
  match FixedWidth.MDRangePolicy UInt Array_default_unset cuda_build Cuda_Rank2
          [0; 5] [10; 5] [4; 0] with
  | Returned p =>
      forall i, (i < Z.to_nat (MDRangePolicy.rank Cuda_Rank2))%nat ->
        [10; 5] !!! i = [0; 5] !!! i ->
        MDRangePolicy.m_tile_end p !!! i = 0 /\ MDRangePolicy.m_num_tiles p = 0
  | DivisionByZero _ _ => False
  | RuntimeException msg => msg = MDRangePolicy.tile_dims_message
  end.
Proof.
  apply (cuda_never_divides_by_zero UInt Array_default_unset cuda_build Cuda_Rank2
           [0; 5] [10; 5] [4; 0] (fun a v => eq_refl)); [|reflexivity].
  split; [by repeat split|].
  split_and!; repeat apply Forall_cons_2; try apply Forall_nil_2; by vm_compute.
Defined.

(** X10: on the Cuda path, when every tile hint is positive, the
    constructor keeps the hints as the tile sizes and throws exactly when
    their product as the index type stores it exceeds 1024, whatever the
    assignment of line 177 does; the tile count of a dimension with
    [lower[i] <= upper[i]] whose numerator [span + tile - 1] fits the type
    is [ceil((upper[i] - lower[i]) / tile[i])]. *)
Theorem cuda_hinted_tiles (I : IndexType)
    (Array_assign : list Z -> Z -> list Z) (build : Build)
    (traits : PolicyTraits) (lower upper tile : list Z) :
  MDRangePolicy.host_path build traits = false ->
  well_sized traits lower upper tile ->
  (forall i, (i < Z.to_nat (MDRangePolicy.rank traits))%nat -> 1 <= tile !!! i) ->
  exists p,
    MDRangePolicy.m_lower p = lower
    /\ MDRangePolicy.m_upper p = upper
    /\ MDRangePolicy.m_tile p = tile
    /\ FixedWidth.MDRangePolicy I Array_assign build traits lower upper tile =
       (if wrap I (product tile) >? 1024
        then RuntimeException MDRangePolicy.tile_dims_message
        else Returned p)
    /\ forall i, (i < Z.to_nat (MDRangePolicy.rank traits))%nat ->
         lower !!! i <= upper !!! i ->
         fits I (upper !!! i - lower !!! i + tile !!! i - 1) ->
         MDRangePolicy.m_tile_end p !!! i =
           ceil_div (upper !!! i - lower !!! i) (tile !!! i).
Proof.
  intros Hpath Hsize Hall.
  destruct (fixed_hinted_outcome I Array_assign build traits lower upper tile
              Hsize Hpath Hall)
    as (p & (Hlo & Hup & Htl & _ & Hcounts & _) & _ & Hout).
  exists p. split_and!; try done.
  intros i Hi Hb Hfit. rewrite (Hcounts i Hi).
  specialize (Hall i Hi).
  assert (Hspan : fits I (upper !!! i - lower !!! i)).
  { apply (fits_between I (upper !!! i - lower !!! i + tile !!! i - 1));
      [lia|done]. }
  unfold idx_sub. rewrite (wrap_fits I _ Hspan).
  apply fixed_count_ceil_div; [lia|done|done].
Qed.

Lemma cuda_hinted_tiles_witness :
  exists p,
    MDRangePolicy.m_lower p = [0; 0]
    /\ MDRangePolicy.m_upper p = [10; 10]
    /\ MDRangePolicy.m_tile p = [4; 3]
    /\ FixedWidth.MDRangePolicy UInt no_assignment cuda_build Cuda_Rank2
         [0; 0] [10; 10] [4; 3] =
       (if wrap UInt (product [4; 3]) >? 1024
        then RuntimeException MDRangePolicy.tile_dims_message
        else Returned p)
    /\ forall i, (i < Z.to_nat (MDRangePolicy.rank Cuda_Rank2))%nat ->
         [0; 0] !!! i <= [10; 10] !!! i ->
         fits UInt ([10; 10] !!! i - [0; 0] !!! i + [4; 3] !!! i - 1) ->
         MDRangePolicy.m_tile_end p !!! i =
           ceil_div ([10; 10] !!! i - [0; 0] !!! i) ([4; 3] !!! i).
Proof.
  apply (cuda_hinted_tiles UInt no_assignment cuda_build Cuda_Rank2
           [0; 0] [10; 10] [4; 3]
           eq_refl (conj eq_refl (conj eq_refl eq_refl))).
  intros [|[|i]] Hi; [by vm_compute | by vm_compute | vm_compute in Hi; lia].
Defined.

(** X11: on the Cuda path, for an assignment [m_tile = 8] that defaults
    the unset entries, with no tile hint at all and a rank of 1 to 3, the
    constructor returns with 8 as the tile size of every dimension; the
    tile count of a dimension with [lower[i] <= upper[i]] whose numerator
    [span + 7] fits the index type is [ceil((upper[i] - lower[i]) / 8)]. *)
Theorem cuda_unhinted_tiles (I : IndexType)
    (Array_assign : list Z -> Z -> list Z) (build : Build)
    (traits : PolicyTraits) (lower upper tile : list Z) :
  defaults_unset_entries Array_assign ->
  MDRangePolicy.host_path build traits = false ->
  well_sized traits lower upper tile ->
  (forall i, (i < Z.to_nat (MDRangePolicy.rank traits))%nat -> tile !!! i <= 0) ->
  1 <= MDRangePolicy.rank traits <= 3 ->
  exists p,
    FixedWidth.MDRangePolicy I Array_assign build traits lower upper tile
    = Returned p
    /\ (forall i, (i < Z.to_nat (MDRangePolicy.rank traits))%nat ->
          MDRangePolicy.m_tile p !!! i = 8
          /\ (lower !!! i <= upper !!! i ->
              fits I (upper !!! i - lower !!! i + 8 - 1) ->
              MDRangePolicy.m_tile_end p !!! i =
                ceil_div (upper !!! i - lower !!! i) 8)).
Proof.
  intros Hassign Hpath Hsize Hall Hrank.
  destruct (fixed_cuda_outcome I Array_assign build traits lower upper tile
              Hassign Hsize Hpath)
    as (p & (_ & _ & _ & _ & Hcounts & _) & Htl & ->).
  destruct Hsize as (_ & _ & Htile).
  assert (Height : forall i, (i < Z.to_nat (MDRangePolicy.rank traits))%nat ->
            Array_default_unset tile 8 !!! i = 8).
  { intros i Hi. rewrite lookup_default_unset by lia.
    specialize (Hall i Hi). destruct (Z.leb_spec (tile !!! i) 0); [done|lia]. }
  assert (Hrep : Array_default_unset tile 8
                 = replicate (Z.to_nat (MDRangePolicy.rank traits)) 8).
  { apply (list_eq_same_length _ _ (Z.to_nat (MDRangePolicy.rank traits))).
    - by rewrite length_replicate.
    - by rewrite length_default_unset.
    - intros i x y Hi Hx Hy.
      apply list_lookup_total_correct in Hx, Hy. subst x y.
      rewrite Height, lookup_total_replicate_2 by done. done. }
  assert (Hvol : wrap I (product (MDRangePolicy.m_tile p)) <= 1024).
  { rewrite Htl, Hrep, product_replicate, Z2Nat.id by lia.
    assert (MDRangePolicy.rank traits = 1 \/ MDRangePolicy.rank traits = 2
            \/ MDRangePolicy.rank traits = 3) as [->|[->| ->]] by lia;
      rewrite wrap_fits by (by apply fits_small); done. }
  destruct (Z.gtb_spec (wrap I (product (MDRangePolicy.m_tile p))) 1024);
    [lia|].
  exists p. split; [done|]. intros i Hi. rewrite Htl. split; [by apply Height|].
  intros Hb Hfit. rewrite (Hcounts i Hi), Height by done.
  assert (Hspan : fits I (upper !!! i - lower !!! i)).
  { apply (fits_between I (upper !!! i - lower !!! i + 8 - 1)); [lia|done]. }
  unfold idx_sub. rewrite (wrap_fits I _ Hspan).
  apply fixed_count_ceil_div; [lia|lia|done].
Qed.

Lemma cuda_unhinted_tiles_witness :
  exists p,
    FixedWidth.MDRangePolicy UInt Array_default_unset cuda_build Cuda_Rank3
      [0; 0; 0] [10; 10; 10] [0; 0; 0] = Returned p
    /\ (forall i, (i < Z.to_nat (MDRangePolicy.rank Cuda_Rank3))%nat ->
          MDRangePolicy.m_tile p !!! i = 8
          /\ ([0; 0; 0] !!! i <= [10; 10; 10] !!! i ->
              fits UInt ([10; 10; 10] !!! i - [0; 0; 0] !!! i + 8 - 1) ->
              MDRangePolicy.m_tile_end p !!! i =
                ceil_div ([10; 10; 10] !!! i - [0; 0; 0] !!! i) 8)).
Proof.
  apply (cuda_unhinted_tiles UInt Array_default_unset cuda_build Cuda_Rank3
           [0; 0; 0] [10; 10; 10] [0; 0; 0]
           (fun a v => eq_refl) eq_refl (conj eq_refl (conj eq_refl eq_refl)));
    [|by vm_compute].
  intros [|[|[|i]]] Hi;
    [by vm_compute | by vm_compute | by vm_compute | vm_compute in Hi; lia].
Defined.
